(** * PySPH [Application]: bootstrap, partitioning and solver interfaces

    A shallow embedding of [pysph/solver/application.py].  The class
    [Application] is stateful Python: its methods mutate the application
    object and the solver it drives, call out to the particle factory, the
    checkpoint loader, the Zoltan partition manager, the [logging] module and
    the command manager, and may raise.  The embedding keeps that shape: a
    state-and-exception monad over a [World] (application attributes, solver
    attributes, and the chronological trace of external calls). *)

From Stdlib Require Import ZArith Bool Lia List Ascii String.
From Stdlib Require Import Decimal DecimalString DecimalFacts DecimalPos DecimalN DecimalZ.
From Stdlib Require Import Floats.SpecFloat.
Import ListNotations.
Local Open Scope string_scope.
Local Open Scope Z_scope.

(* ================================================================== *)
(** * Python strings: the [str] operations used by the source          *)
(* ================================================================== *)

Module PyStr.

(** [len(s)] *)
Definition len (s : string) : Z := Z.of_nat (String.length s).

(** [s.find(c)] for a one-character needle: index of the first occurrence,
    or [-1]. *)
Fixpoint find_from (c : ascii) (s : string) (i : Z) : Z :=
  match s with
  | EmptyString => -1
  | String a s' => if Ascii.eqb a c then i else find_from c s' (i + 1)
  end.

Definition find (c : ascii) (s : string) : Z := find_from c s 0.

Fixpoint take (n : nat) (s : string) : string :=
  match n, s with
  | O, _ => EmptyString
  | S _, EmptyString => EmptyString
  | S n', String a s' => String a (take n' s')
  end.

Fixpoint drop (n : nat) (s : string) : string :=
  match n, s with
  | O, _ => s
  | S _, EmptyString => EmptyString
  | S n', String _ s' => drop n' s'
  end.

(** A slice bound is clipped the way Python clips it: a negative bound
    counts from the end, and the result is kept inside [0, len]. *)
Definition clip (l i : Z) : nat :=
  Z.to_nat (if i <? 0 then Z.max 0 (l + i) else Z.min i l).

(** [s[:i]] *)
Definition slice_to (s : string) (i : Z) : string := take (clip (len s) i) s.

(** [s[i:]] *)
Definition slice_from (s : string) (i : Z) : string := drop (clip (len s) i) s.

(** [s[i]]: [None] stands for [IndexError]. *)
Definition getitem (s : string) (i : Z) : option ascii :=
  let j := if i <? 0 then len s + i else i in
  if (j <? 0) || (len s <=? j) then None else String.get (Z.to_nat j) s.

(** [s.split(c)[0]]: the text before the first [c], the whole string when
    there is none. *)
Definition split_head (c : ascii) (s : string) : string :=
  let idx := find c s in
  if idx =? -1 then s else slice_to s idx.

(** ** [int(s)] in base 10

    Grammar: optional surrounding white space, an optional sign, one or more
    decimal digits.  [None] stands for [ValueError]. *)

Definition is_space (a : ascii) : bool :=
  let n := N_of_ascii a in
  ((9 <=? n) && (n <=? 13))%N || (n =? 32)%N.

Definition digit_of (a : ascii) : option Z :=
  let n := N_of_ascii a in
  if ((48 <=? n) && (n <=? 57))%N then Some (Z.of_N n - 48) else None.

Fixpoint lstrip (s : string) : string :=
  match s with
  | EmptyString => EmptyString
  | String a s' => if is_space a then lstrip s' else s
  end.

Fixpoint rstrip (s : string) : string :=
  match s with
  | EmptyString => EmptyString
  | String a s' =>
      match rstrip s' with
      | EmptyString => if is_space a then EmptyString else String a EmptyString
      | r => String a r
      end
  end.

Definition strip (s : string) : string := rstrip (lstrip s).

Fixpoint digits_acc (acc : Z) (s : string) : option Z :=
  match s with
  | EmptyString => Some acc
  | String a s' =>
      match digit_of a with
      | Some d => digits_acc (10 * acc + d) s'
      | None => None
      end
  end.

Definition digits (s : string) : option Z :=
  match s with
  | EmptyString => None
  | _ => digits_acc 0 s
  end.

Definition int (s : string) : option Z :=
  match strip s with
  | String "+" r => digits r
  | String "-" r => option_map Z.opp (digits r)
  | r => digits r
  end.

(** [str(n)] for an integer [n]: its decimal numeral, with a leading [-]
    when negative. *)
Definition str (n : Z) : string := NilZero.string_of_int (Z.to_int n).

(** The integer a string of decimal digits denotes, read by the standard
    library's numeral reader; [None] when the string is empty or holds
    anything but digits.  This is the reference the source's [int] is
    compared with. *)
Definition decimal (s : string) : option Z :=
  option_map (fun d => Z.of_N (N.of_uint d)) (NilZero.uint_of_string s).

(** [c] does not occur in [s]. *)
Fixpoint lacks (c : ascii) (s : string) : bool :=
  match s with
  | EmptyString => true
  | String a s' => negb (Ascii.eqb a c) && lacks c s'
  end.

End PyStr.

(* ================================================================== *)
(** * Python floats: IEEE 754 binary64                                 *)
(* ================================================================== *)

Module PyFloat.

Definition prec : Z := 53.
Definition emax : Z := 1024.

Definition float : Type := spec_float.

(** [x * y] on floats: the correctly rounded binary64 product. *)
Definition mul (x y : float) : float := SFmul prec emax x y.

(** The value is a binary64 datum (mantissa and exponent in range). *)
Definition valid (x : float) : bool := valid_binary prec emax x.

Definition one : float := S754_finite false 4503599627370496 (-52).
Definition two : float := S754_finite false 4503599627370496 (-51).
Definition three : float := S754_finite false 6755399441055744 (-51).

End PyFloat.

(* ================================================================== *)
(** * Data model                                                       *)
(* ================================================================== *)

(** A particle array, as far as [Application] looks at it: it is iterated,
    stored, handed on, and its [is_static] attribute is read. *)
Record ParticleArray := {
  name : string;
  is_static : bool;
  num_particles : nat
}.

(** [data['solver_data']] of a restart file. *)
Record SolverData := {
  sd_t : PyFloat.float;
  sd_dt : PyFloat.float;
  sd_count : Z
}.

(** What [load(restart_file)] returns.  [arrays] is a dict from array name
    to particle array; it is kept as an association list in the dict's
    iteration order, which is the order the restart loop sees. *)
Record RestartData := {
  arrays : list (string * ParticleArray);
  solver_data : SolverData
}.

(** The MPI communicator handle ([mpi.COMM_WORLD]). *)
Inductive Comm := COMM_WORLD.

Record Domain := { domain_is_periodic : bool }.

(** Exceptions.  [Foreign] is whatever an external callable (the particle
    factory, [load]) raised; the others are the built-in exceptions the
    application code itself can run into. *)
Inductive exn :=
| Foreign (what : string)
| RuntimeError (msg : string)
| ValueError (msg : string)
| KeyError (key : string)
| IndexError
| TypeError (msg : string)
| AttributeError (attr : string)
| NameError (ident : string).

Inductive outcome (A : Type) :=
| Ok (a : A)
| Raise (e : exn).
Arguments Ok {A} a.
Arguments Raise {A} e.

(** ** Parsed command-line options

    One record per [OptionGroup] of [_setup_optparse]; the top-level options
    sit in [Options] itself.  A field is an [option] exactly where the source
    gives the default [None] (or no default at all). *)

Record RestartOptions := {
  restart_file : option string;
  rescale_dt : PyFloat.float
}.

Record ZoltanOptions := {
  with_zoltan : bool;
  zoltan_lb_method : string;
  zoltan_weights : bool;
  ghost_layers : PyFloat.float;
  zoltan_debug_level : string
}.

Record ParallelOptions := {
  update_cell_sizes : bool;
  parallel_scale_factor : PyFloat.float;
  parallel_mode : string;
  parallel_output_mode : string
}.

Record InterfaceOptions := {
  cmd_line : bool;
  xml_rpc : option string;
  multiproc : option string
}.

Record Options := {
  loglevel : string;
  logfile : option string;
  print_log : bool;
  final_time : option PyFloat.float;
  time_step : option PyFloat.float;
  quiet : bool;
  output : string;
  freq : Z;
  detailed_output : bool;
  output_dir : string;
  kernel : option Z;
  integration : option Z;
  with_cl : bool;
  restart : RestartOptions;
  zoltan : ZoltanOptions;
  parallel : ParallelOptions;
  interfaces : InterfaceOptions;
  resume : option string
}.

(** ** The Zoltan partition manager, seen from the application

    The class [ZoltanParallelManagerGeometric] lives in [pysph.parallel] and
    is not part of these sources.  The application passes it constructor
    arguments, sets two Zoltan parameters through [pm.pz], calls [update()]
    and assigns the attribute [initial_update].  The record keeps exactly
    that; what the constructor puts into [initial_update] and what
    [update()] does to the object are parameters of the environment. *)
Record ParallelManager := {
  pm_dim : Z;
  pm_particles : list ParticleArray;
  pm_comm : option Comm;
  lb_method : string;
  obj_weight_dim : string;
  pm_ghost_layers : PyFloat.float;
  pm_update_cell_sizes : bool;
  radius_scale : PyFloat.float;
  pz_params : list (string * string);
  initial_update : bool
}.

Definition set_initial_update (b : bool) (m : ParallelManager) : ParallelManager :=
  {| pm_dim := pm_dim m; pm_particles := pm_particles m; pm_comm := pm_comm m;
     lb_method := lb_method m; obj_weight_dim := obj_weight_dim m;
     pm_ghost_layers := pm_ghost_layers m;
     pm_update_cell_sizes := pm_update_cell_sizes m;
     radius_scale := radius_scale m; pz_params := pz_params m;
     initial_update := b |}.

Definition Zoltan_Set_Param (k v : string) (m : ParallelManager) : ParallelManager :=
  {| pm_dim := pm_dim m; pm_particles := pm_particles m; pm_comm := pm_comm m;
     lb_method := lb_method m; obj_weight_dim := obj_weight_dim m;
     pm_ghost_layers := pm_ghost_layers m;
     pm_update_cell_sizes := pm_update_cell_sizes m;
     radius_scale := radius_scale m; pz_params := pz_params m ++ [(k, v)];
     initial_update := initial_update m |}.

(** The two manager objects the application can create. *)
Inductive PMHandle := PMDynamic | PMStatic.

(** ** The solver, seen from the application

    The attributes the application reads or assigns directly.  Method calls
    on the solver are external and appear in the trace instead. *)
Module Solver.
Record state := {
  t : PyFloat.float;
  dt : PyFloat.float;
  count : Z;
  dim : Z;
  kernel_radius_scale : PyFloat.float;
  rank : Z;
  pid : Z;
  comm : option Comm;
  in_parallel : bool
}.

Definition set_time (t' dt' : PyFloat.float) (count' : Z) (s : state) : state :=
  {| t := t'; dt := dt'; count := count'; dim := dim s;
     kernel_radius_scale := kernel_radius_scale s; rank := rank s;
     pid := pid s; comm := comm s; in_parallel := in_parallel s |}.

Definition set_rank (r : Z) (c : option Comm) (s : state) : state :=
  {| t := t s; dt := dt s; count := count s; dim := dim s;
     kernel_radius_scale := kernel_radius_scale s; rank := r;
     pid := r; comm := c; in_parallel := in_parallel s |}.

Definition set_in_parallel (b : bool) (s : state) : state :=
  {| t := t s; dt := dt s; count := count s; dim := dim s;
     kernel_radius_scale := kernel_radius_scale s; rank := rank s;
     pid := pid s; comm := comm s; in_parallel := b |}.
End Solver.

(** Solver interfaces handed to the command manager. *)
Inductive Interface :=
| CommandlineInterface
| XMLRPCInterface (host : string) (port : Z)
| MultiprocessingInterface (host : string) (port : Z) (authkey : string)
                           (try_next_port : bool).

(** Method calls on the solver object. *)
Inductive SolverCall :=
| get_options
| setup_solver (o : Options)
| set_time_step (dt : PyFloat.float)
| set_final_time (tf : PyFloat.float)
| set_output_fname (fname : string)
| set_print_freq (n : Z)
| set_output_printing_level (detailed : bool)
| set_output_directory (dir : string)
| set_parallel_output_mode (mode : string)
| set_parallel_manager (pm : option ParallelManager)
| set_parallel_manager_static (pm : option ParallelManager)
| solver_setup (particles : list ParticleArray)
| set_command_handler.

(** Everything the application does to the outside, in order. *)
Inductive Event :=
| EvLoad (path : string)
| EvFactory (empty : bool)
| EvMkdir (path : string)
| EvLoggerSetLevel (level : Z)
| EvBasicConfig (level : Z) (filename : string)
| EvAddStreamHandler
| EvLoggerInfo (msg : string)
| EvZoltanNew (h : PMHandle)
| EvZoltanSetParam (h : PMHandle) (k v : string)
| EvZoltanUpdate (h : PMHandle)
| EvBarrier
| EvSolver (c : SolverCall)
| EvNNPSNew
| EvNNPSSetInParallel
| EvCommandManagerNew
| EvAddInterface (i : Interface).

(** The process environment: module-level flags, [sys.argv], the MPI world,
    the file system and the external partition service. *)
Record Env := {
  Has_MPI : bool;
  Has_Zoltan : bool;
  argv0 : string;
  argv0_stem : string;      (* splitext(basename(sys.argv[0]))[0] *)
  comm_size : Z;            (* mpi.COMM_WORLD.Get_size() *)
  comm_rank : Z;            (* mpi.COMM_WORLD.Get_rank() *)
  abspath : string -> string;
  load : string -> outcome RestartData;
  zoltan_initial_update : bool;
  zoltan_update : ParallelManager -> ParallelManager
}.

(** A particle factory: called with [empty=True] or without, it returns the
    particle arrays or raises.  [None] is the default [particle_factory=None]
    of [setup]. *)
Definition Factory : Type := option (bool -> outcome (list ParticleArray)).

(** ** The application object *)
Record Application := {
  is_periodic : bool;
  domain : option Domain;
  _solver : option Solver.state;
  fname : string;
  comm : option Comm;
  num_procs : Z;
  rank : Z;
  path : option string;
  options : option Options;
  logger : bool;                       (* [self.logger] has been assigned *)
  particles : list ParticleArray;
  particles_static : list ParticleArray;
  particles_dynamic : list ParticleArray;
  pm : option ParallelManager;
  pm_static : option ParallelManager
}.

Record World := {
  app : Application;
  trace : list Event
}.

(** Attribute assignment [self.<field> = v]. *)
Definition set__solver (v : option Solver.state) (a : Application) : Application :=
  {| is_periodic := is_periodic a; domain := domain a; _solver := v;
     fname := fname a; comm := comm a; num_procs := num_procs a;
     rank := rank a; path := path a; options := options a;
     logger := logger a; particles := particles a;
     particles_static := particles_static a;
     particles_dynamic := particles_dynamic a; pm := pm a;
     pm_static := pm_static a |}.

Definition set_path (v : option string) (a : Application) : Application :=
  {| is_periodic := is_periodic a; domain := domain a; _solver := _solver a;
     fname := fname a; comm := comm a; num_procs := num_procs a;
     rank := rank a; path := v; options := options a; logger := logger a;
     particles := particles a; particles_static := particles_static a;
     particles_dynamic := particles_dynamic a; pm := pm a;
     pm_static := pm_static a |}.

Definition set_options (v : option Options) (a : Application) : Application :=
  {| is_periodic := is_periodic a; domain := domain a; _solver := _solver a;
     fname := fname a; comm := comm a; num_procs := num_procs a;
     rank := rank a; path := path a; options := v; logger := logger a;
     particles := particles a; particles_static := particles_static a;
     particles_dynamic := particles_dynamic a; pm := pm a;
     pm_static := pm_static a |}.

Definition set_logger (v : bool) (a : Application) : Application :=
  {| is_periodic := is_periodic a; domain := domain a; _solver := _solver a;
     fname := fname a; comm := comm a; num_procs := num_procs a;
     rank := rank a; path := path a; options := options a; logger := v;
     particles := particles a; particles_static := particles_static a;
     particles_dynamic := particles_dynamic a; pm := pm a;
     pm_static := pm_static a |}.

Definition set_particles (v : list ParticleArray) (a : Application) : Application :=
  {| is_periodic := is_periodic a; domain := domain a; _solver := _solver a;
     fname := fname a; comm := comm a; num_procs := num_procs a;
     rank := rank a; path := path a; options := options a;
     logger := logger a; particles := v;
     particles_static := particles_static a;
     particles_dynamic := particles_dynamic a; pm := pm a;
     pm_static := pm_static a |}.

Definition set_particles_static (v : list ParticleArray) (a : Application) : Application :=
  {| is_periodic := is_periodic a; domain := domain a; _solver := _solver a;
     fname := fname a; comm := comm a; num_procs := num_procs a;
     rank := rank a; path := path a; options := options a;
     logger := logger a; particles := particles a; particles_static := v;
     particles_dynamic := particles_dynamic a; pm := pm a;
     pm_static := pm_static a |}.

Definition set_particles_dynamic (v : list ParticleArray) (a : Application) : Application :=
  {| is_periodic := is_periodic a; domain := domain a; _solver := _solver a;
     fname := fname a; comm := comm a; num_procs := num_procs a;
     rank := rank a; path := path a; options := options a;
     logger := logger a; particles := particles a;
     particles_static := particles_static a; particles_dynamic := v;
     pm := pm a; pm_static := pm_static a |}.

Definition set_pm (v : option ParallelManager) (a : Application) : Application :=
  {| is_periodic := is_periodic a; domain := domain a; _solver := _solver a;
     fname := fname a; comm := comm a; num_procs := num_procs a;
     rank := rank a; path := path a; options := options a;
     logger := logger a; particles := particles a;
     particles_static := particles_static a;
     particles_dynamic := particles_dynamic a; pm := v;
     pm_static := pm_static a |}.

Definition set_pm_static (v : option ParallelManager) (a : Application) : Application :=
  {| is_periodic := is_periodic a; domain := domain a; _solver := _solver a;
     fname := fname a; comm := comm a; num_procs := num_procs a;
     rank := rank a; path := path a; options := options a;
     logger := logger a; particles := particles a;
     particles_static := particles_static a;
     particles_dynamic := particles_dynamic a; pm := pm a; pm_static := v |}.

(* ================================================================== *)
(** * State and exceptions                                             *)
(* ================================================================== *)

(** A method body: it runs from a world and either returns or raises; the
    world it leaves behind is kept in both cases, as Python keeps the objects
    mutated before an exception. *)
Definition M (A : Type) : Type := World -> outcome A * World.

Definition ret {A} (a : A) : M A := fun w => (Ok a, w).

Definition bind {A B} (m : M A) (k : A -> M B) : M B :=
  fun w =>
    match m w with
    | (Ok a, w') => k a w'
    | (Raise e, w') => (Raise e, w')
    end.

Definition raise {A} (e : exn) : M A := fun w => (Raise e, w).

Definition lift {A} (o : outcome A) : M A := fun w => (o, w).

Declare Scope py_scope.
Delimit Scope py_scope with py.
Notation "x <- m ;; k" := (bind m (fun x => k))
  (at level 61, m at next level, right associativity) : py_scope.
Notation "m ;; k" := (bind m (fun _ => k))
  (at level 61, right associativity) : py_scope.
Local Open Scope py_scope.

(** An external call, appended to the trace. *)
Definition emit (ev : Event) : M unit :=
  fun w => (Ok tt, {| app := app w; trace := trace w ++ [ev] |}).

(** Reading and assigning attributes of [self]. *)
Definition self : M Application := fun w => (Ok (app w), w).

Definition assign (f : Application -> Application) : M unit :=
  fun w => (Ok tt, {| app := f (app w); trace := trace w |}).

Definition when (b : bool) (m : M unit) : M unit := if b then m else ret tt.

Fixpoint for_each {A} (xs : list A) (body : A -> M unit) : M unit :=
  match xs with
  | [] => ret tt
  | x :: xs' => body x ;; for_each xs' body
  end.

(** [self.options], which exists once [_process_command_line] has run. *)
Definition get_opts : M Options :=
  a <- self ;;
  match options a with
  | Some o => ret o
  | None => raise (AttributeError "options")
  end.

(** Attribute access on [self._solver], which is [None] until [setup]. *)
Definition read_solver : M Solver.state :=
  a <- self ;;
  match _solver a with
  | Some s => ret s
  | None => raise (AttributeError "_solver")
  end.

Definition with_solver (f : Solver.state -> Solver.state) : M unit :=
  s <- read_solver ;;
  assign (set__solver (Some (f s))).

Definition solver_call (c : SolverCall) : M unit :=
  _ <- read_solver ;;
  emit (EvSolver c).

(** The manager object behind a handle, and mutation of that object: both
    [self.pm] and the local variable [pm] of the source name the same
    object, so a mutation through either shows in the attribute. *)
Definition the_pm (h : PMHandle) (a : Application) : option ParallelManager :=
  match h with
  | PMDynamic => pm a
  | PMStatic => pm_static a
  end.

Definition set_the_pm (h : PMHandle) (v : option ParallelManager)
    (a : Application) : Application :=
  match h with
  | PMDynamic => set_pm v a
  | PMStatic => set_pm_static v a
  end.

Definition mutate_pm (h : PMHandle) (f : ParallelManager -> ParallelManager) : M unit :=
  assign (fun a => set_the_pm h (option_map f (the_pm h a)) a).

(* ================================================================== *)
(** * [Application.__init__] and [_setup_optparse]                      *)
(* ================================================================== *)

(** [Application(fname, domain)].  The name [mpi] is imported only when both
    [Has_MPI] and [Has_Zoltan] hold, and used when [Has_MPI] holds. *)
Definition init (env : Env) (fname0 : option string) (domain0 : option Domain)
    : outcome Application :=
  let periodic :=
    match domain0 with
    | Some d => domain_is_periodic d
    | None => false
    end in
  let fname1 :=
    match fname0 with
    | None => PyStr.split_head "." (argv0 env)
    | Some f => f
    end in
  let mk c n r :=
    {| is_periodic := periodic; domain := domain0; _solver := None;
       fname := fname1; comm := c; num_procs := n; rank := r;
       path := None; options := None; logger := false;
       particles := []; particles_static := []; particles_dynamic := [];
       pm := None; pm_static := None |} in
  if Has_MPI env then
    if Has_Zoltan env
    then Ok (mk (Some COMM_WORLD) (comm_size env) (comm_rank env))
    else Raise (NameError "mpi")
  else Ok (mk None 1 0).

(** The defaults [_setup_optparse] registers. *)
Definition default_interfaces : InterfaceOptions :=
  {| cmd_line := false; xml_rpc := None;
     multiproc := Some "pysph@0.0.0.0:8800+" |}.

Definition default_options (fname : string) : Options :=
  {| loglevel := "warning"; logfile := None; print_log := false;
     final_time := None; time_step := None; quiet := false;
     output := fname; freq := 100; detailed_output := false;
     output_dir := fname ++ "_output"; kernel := None; integration := None;
     with_cl := false;
     restart := {| restart_file := None; rescale_dt := PyFloat.one |};
     zoltan := {| with_zoltan := true; zoltan_lb_method := "RCB";
                  zoltan_weights := true; ghost_layers := PyFloat.three;
                  zoltan_debug_level := "0" |};
     parallel := {| update_cell_sizes := false;
                    parallel_scale_factor := PyFloat.two;
                    parallel_mode := "auto";
                    parallel_output_mode := "collected" |};
     interfaces := default_interfaces;
     resume := None |}.

(** The options of the "Interfaces" group as they can appear on the command
    line, and what each does to the parsed values. *)
Inductive InterfaceFlag :=
| flag_interactive                 (* --interactive *)
| flag_xml_rpc (addr : string)     (* --xml-rpc [HOST:]PORT *)
| flag_multiproc (addr : string)   (* --multiproc [[AUTHKEY@]HOST:]PORT[+] *)
| flag_no_multiproc.               (* --no-multiproc *)

Definition apply_flag (io : InterfaceOptions) (f : InterfaceFlag) : InterfaceOptions :=
  match f with
  | flag_interactive =>
      {| cmd_line := true; xml_rpc := xml_rpc io; multiproc := multiproc io |}
  | flag_xml_rpc addr =>
      {| cmd_line := cmd_line io; xml_rpc := Some addr; multiproc := multiproc io |}
  | flag_multiproc addr =>
      {| cmd_line := cmd_line io; xml_rpc := xml_rpc io; multiproc := Some addr |}
  | flag_no_multiproc =>
      {| cmd_line := cmd_line io; xml_rpc := xml_rpc io; multiproc := None |}
  end.

Definition parse_interface_flags (flags : list InterfaceFlag) : InterfaceOptions :=
  fold_left apply_flag flags default_interfaces.

(* ================================================================== *)
(** * [_process_command_line] and [_setup_logging]                      *)
(* ================================================================== *)

(** [self._log_levels]: the outer [None] is a missing key. *)
Definition _log_levels (k : string) : option (option Z) :=
  if String.eqb k "debug" then Some (Some 10)
  else if String.eqb k "info" then Some (Some 20)
  else if String.eqb k "warning" then Some (Some 30)
  else if String.eqb k "error" then Some (Some 40)
  else if String.eqb k "critical" then Some (Some 50)
  else if String.eqb k "none" then Some None
  else None.

(** [os.path.join(a, b)] (posix).  [a] is [self.path], which is [None]
    before [_process_command_line] has run. *)
Definition os_path_join (a : option string) (b : string) : outcome string :=
  match b with
  | String "/" _ => Ok b
  | _ =>
      match a with
      | None => Raise (AttributeError "endswith")
      | Some p =>
          match PyStr.getitem p (-1) with
          | None => Ok (p ++ b)
          | Some "/"%char => Ok (p ++ b)
          | Some _ => Ok (p ++ "/" ++ b)
          end
      end
  end.

Definition _setup_logging (env : Env) (filename : option string) (loglevel : Z)
    (stream : bool) : M unit :=
  assign (set_logger true) ;;
  emit (EvLoggerSetLevel loglevel) ;;
  let filename :=
    match filename with
    | None => argv0_stem env ++ ".log"
    | Some f => f
    end in
  (if PyStr.len filename >? 0 then
     a <- self ;;
     lfn <- lift (os_path_join (path a) filename) ;;
     when (num_procs a >? 1) (emit (EvBasicConfig loglevel lfn))
   else ret tt) ;;
  when stream (emit EvAddStreamHandler).

(** [parsed] is what [self.opt_parse.parse_args(self.args)] returned. *)
Definition _process_command_line (env : Env) (parsed : Options) : M unit :=
  assign (set_options (Some parsed)) ;;
  match _log_levels (loglevel parsed) with
  | None => raise (KeyError (loglevel parsed))
  | Some level =>
      let p := abspath env (output_dir parsed) in
      assign (set_path (Some p)) ;;
      emit (EvMkdir p) ;;
      match level with
      | Some l => _setup_logging env (logfile parsed) l (print_log parsed)
      | None => ret tt
      end
  end.

(* ================================================================== *)
(** * [_create_particles]                                               *)
(* ================================================================== *)

(** [arrays[array_name]] *)
Fixpoint dict_get (d : list (string * ParticleArray)) (k : string)
    : outcome ParticleArray :=
  match d with
  | [] => Raise (KeyError k)
  | (k', v) :: d' => if String.eqb k' k then Ok v else dict_get d' k
  end.

(** The restart loop: [for array_name in arrays:
    particles.append(arrays[array_name])]. *)
Fixpoint restart_particles (d : list (string * ParticleArray))
    (names : list string) (acc : list ParticleArray)
    : outcome (list ParticleArray) :=
  match names with
  | [] => Ok acc
  | n :: names' =>
      match dict_get d n with
      | Ok pa => restart_particles d names' (acc ++ [pa])
      | Raise e => Raise e
      end
  end.

(** Calling [particle_factory]. *)
Definition call_factory (factory : Factory) (empty : bool)
    : M (list ParticleArray) :=
  match factory with
  | None => raise (TypeError "'NoneType' object is not callable")
  | Some f => emit (EvFactory empty) ;; lift (f empty)
  end.

(** Lines 346-374: who creates the particles. *)
Definition create_or_restart (env : Env) (factory : Factory) : M unit :=
  a <- self ;;
  o <- get_opts ;;
  if rank a =? 0 then
    match restart_file (restart o) with
    | Some f =>
        emit (EvLoad f) ;;
        data <- lift (load env f) ;;
        ps <- lift (restart_particles (arrays data) (map fst (arrays data)) []) ;;
        assign (set_particles ps) ;;
        let t := sd_t (solver_data data) in
        let dt := sd_dt (solver_data data) in
        let count := sd_count (solver_data data) in
        let dt := PyFloat.mul dt (rescale_dt (restart o)) in
        with_solver (Solver.set_time t dt count)
    | None =>
        ps <- call_factory factory false ;;
        assign (set_particles ps)
    end
  else
    ps <- call_factory factory true ;;
    assign (set_particles ps).

(** Lines 376-383: static and dynamic particle arrays. *)
Definition classify_particles : M unit :=
  assign (set_particles_static []) ;;
  assign (set_particles_dynamic []) ;;
  a <- self ;;
  for_each (particles a) (fun pa =>
    if is_static pa
    then assign (fun a => set_particles_static (particles_static a ++ [pa]) a)
    else assign (fun a => set_particles_dynamic (particles_dynamic a ++ [pa]) a)).

(** The constructor call [ZoltanParallelManagerGeometric(dim=..., ...)]. *)
Definition ZoltanParallelManagerGeometric (env : Env) (dim : Z)
    (ps : list ParticleArray) (c : option Comm) (lb : string) (owd : string)
    (gl : PyFloat.float) (ucs : bool) (rs : PyFloat.float) : ParallelManager :=
  {| pm_dim := dim; pm_particles := ps; pm_comm := c; lb_method := lb;
     obj_weight_dim := owd; pm_ghost_layers := gl;
     pm_update_cell_sizes := ucs; radius_scale := rs; pz_params := [];
     initial_update := zoltan_initial_update env |}.

Definition pz_set_param (h : PMHandle) (k v : string) : M unit :=
  emit (EvZoltanSetParam h k v) ;;
  mutate_pm h (Zoltan_Set_Param k v).

Definition pm_update (env : Env) (h : PMHandle) : M unit :=
  emit (EvZoltanUpdate h) ;;
  mutate_pm h (zoltan_update env).

(** [comm.barrier()] *)
Definition barrier : M unit :=
  a <- self ;;
  match comm a with
  | Some _ => emit EvBarrier
  | None => raise (AttributeError "barrier")
  end.

(** Lines 385-454: the parallel managers and the initial load balance. *)
Definition create_parallel_managers (env : Env) : M unit :=
  assign (set_pm None) ;;
  assign (set_pm_static None) ;;
  a <- self ;;
  if num_procs a >? 1 then
    o <- get_opts ;;
    (if with_zoltan (zoltan o) then
       if negb (Has_Zoltan env && Has_MPI env)
       then raise (RuntimeError "Cannot run in parallel!")
       else ret tt
     else raise (ValueError "Sorry. You're stuck with Zoltan for now")) ;;
    let owd := if zoltan_weights (zoltan o) then "1" else "0" in
    let zoltan_lb_method := zoltan_lb_method (zoltan o) in
    let ghost_layers := ghost_layers (zoltan o) in
    s <- read_solver ;;
    let radius_scale :=
      PyFloat.mul (parallel_scale_factor (parallel o))
                  (Solver.kernel_radius_scale s) in
    emit (EvZoltanNew PMDynamic) ;;
    assign (set_pm (Some (ZoltanParallelManagerGeometric env (Solver.dim s)
      (particles_dynamic a) (comm a) zoltan_lb_method owd ghost_layers
      (update_cell_sizes (parallel o)) radius_scale))) ;;
    pz_set_param PMDynamic "DEBUG_LEVEL" (zoltan_debug_level (zoltan o)) ;;
    pz_set_param PMDynamic "DEBUG_MEMORY" "0" ;;
    pm_update env PMDynamic ;;
    mutate_pm PMDynamic (set_initial_update false) ;;
    (if Z.of_nat (List.length (particles_static a)) >? 0 then
       emit (EvZoltanNew PMStatic) ;;
       assign (set_pm_static (Some (ZoltanParallelManagerGeometric env
         (Solver.dim s) (particles_static a) (comm a) zoltan_lb_method owd
         ghost_layers (update_cell_sizes (parallel o)) radius_scale))) ;;
       pz_set_param PMStatic "DEBUG_LEVEL" (zoltan_debug_level (zoltan o)) ;;
       pz_set_param PMStatic "DEBUG_MEMORY" "0" ;;
       pm_update env PMStatic ;;
       mutate_pm PMDynamic (set_initial_update false)
     else ret tt) ;;
    barrier
  else ret tt.

(** Lines 456-460: set the solver's parallel managers, return the
    particles. *)
Definition attach_managers : M (list ParticleArray) :=
  a <- self ;;
  solver_call (set_parallel_manager (pm a)) ;;
  solver_call (set_parallel_manager_static (pm_static a)) ;;
  ret (particles a).

(** Lines 385-460, what follows the classification. *)
Definition partition_particles (env : Env) : M (list ParticleArray) :=
  create_parallel_managers env ;;
  attach_managers.

Definition _create_particles (env : Env) (factory : Factory)
    : M (list ParticleArray) :=
  create_or_restart env factory ;;
  classify_particles ;;
  partition_particles env.

(* ================================================================== *)
(** * [setup]                                                           *)
(* ================================================================== *)

(** Truth value of an option that is [None] or a string. *)
Definition truthy (o : option string) : option string :=
  match o with
  | Some EmptyString => None
  | Some s => Some s
  | None => None
  end.

(** Lines 612-615: [[HOST:]PORT]. *)
Definition parse_xml_rpc_address (addr : string) : outcome (string * Z) :=
  let idx := PyStr.find ":" addr in
  let host := if idx =? -1 then "0.0.0.0" else PyStr.slice_to addr idx in
  match PyStr.int (PyStr.slice_from addr (idx + 1)) with
  | Some port => Ok (host, port)
  | None => Raise (ValueError "invalid literal for int()")
  end.

(** Lines 621-633: [[[AUTHKEY@]HOST:]PORT[+]], giving
    (authkey, host, port, try_next_port). *)
Definition parse_multiproc_address (addr : string)
    : outcome (string * string * Z * bool) :=
  let idx := PyStr.find "@" addr in
  let authkey := if idx =? -1 then "pysph" else PyStr.slice_to addr idx in
  let addr := PyStr.slice_from addr (idx + 1) in
  let idx := PyStr.find ":" addr in
  let host := if idx =? -1 then "0.0.0.0" else PyStr.slice_to addr idx in
  let port := PyStr.slice_from addr (idx + 1) in
  match PyStr.getitem port (-1) with
  | None => Raise IndexError
  | Some c =>
      let try_next_port := Ascii.eqb c "+" in
      let port := if try_next_port then PyStr.slice_to port (-1) else port in
      match PyStr.int port with
      | Some p => Ok (authkey, host, p, try_next_port)
      | None => Raise (ValueError "invalid literal for int()")
      end
  end.

(** [self.logger.info(...)]; [self.logger] exists only once
    [_setup_logging] has run. *)
Definition logger_info (msg : string) : M unit :=
  a <- self ;;
  if logger a then emit (EvLoggerInfo msg)
  else raise (AttributeError "logger").

(** Lines 599-641: add solver interfaces. *)
Definition add_solver_interfaces (o : Options) : M unit :=
  emit EvCommandManagerNew ;;
  solver_call set_command_handler ;;
  a <- self ;;
  if rank a =? 0 then
    when (cmd_line (interfaces o)) (emit (EvAddInterface CommandlineInterface)) ;;
    match truthy (xml_rpc (interfaces o)) with
    | Some addr =>
        hp <- lift (parse_xml_rpc_address addr) ;;
        emit (EvAddInterface (XMLRPCInterface (fst hp) (snd hp)))
    | None => ret tt
    end ;;
    match truthy (multiproc (interfaces o)) with
    | Some addr =>
        r <- lift (parse_multiproc_address addr) ;;
        let '(authkey, host, port, try_next_port) := r in
        emit (EvAddInterface
                (MultiprocessingInterface host port authkey try_next_port)) ;;
        logger_info "started multiprocessing interface"
    | None => ret tt
    end
  else ret tt.

(** Lines 546-552: the solver output file name. *)
Definition output_fname (env : Env) (a : Application) (o : Options) : string :=
  let fname := output o in
  if Has_MPI env then
    if num_procs a >? 1 then fname ++ "_" ++ PyStr.str (rank a) else fname
  else fname.

(** [setup(solver, equations, nnps, particle_factory)], in the three
    stretches its comments mark.  [parsed] is the result of parsing the
    command line, [nnps_given] tells whether an [nnps] argument was passed. *)

(** Lines 510-544: command line, particles, solver options, NNPS, time
    step and final time.  Returns the local [options]. *)
Definition setup_particles (env : Env) (solver : Solver.state)
    (parsed : Options) (nnps_given : bool) (factory : Factory) : M Options :=
  assign (set__solver (Some solver)) ;;
  solver_call get_options ;;
  _process_command_line env parsed ;;
  o <- get_opts ;;
  _ <- _create_particles env factory ;;
  solver_call (setup_solver o) ;;
  when (negb nnps_given) (emit EvNNPSNew) ;;
  a <- self ;;
  when (num_procs a >? 1) (emit EvNNPSSetInParallel) ;;
  match time_step o with
  | Some dt => solver_call (set_time_step dt)
  | None => ret tt
  end ;;
  match final_time o with
  | Some tf => solver_call (set_final_time tf)
  | None => ret tt
  end ;;
  ret o.

(** Lines 546-597: output file name, rank, output settings, and the
    solver's own [setup]. *)
Definition setup_output (env : Env) (o : Options) : M unit :=
  a <- self ;;
  let fname := output_fname env a o in
  with_solver (Solver.set_rank (rank a) (comm a)) ;;
  when (num_procs a >? 1) (with_solver (Solver.set_in_parallel true)) ;;
  solver_call (set_output_fname fname) ;;
  solver_call (set_print_freq (freq o)) ;;
  solver_call (set_output_printing_level (detailed_output o)) ;;
  solver_call (set_output_directory (abspath env (output_dir o))) ;;
  solver_call (set_parallel_output_mode (parallel_output_mode (parallel o))) ;;
  solver_call (solver_setup (particles a)).

Definition setup (env : Env) (solver : Solver.state) (parsed : Options)
    (nnps_given : bool) (factory : Factory) : M unit :=
  o <- setup_particles env solver parsed nnps_given factory ;;
  setup_output env o ;;
  add_solver_interfaces o.

(* ================================================================== *)
(** * [list_option_callback]                                            *)
(* ================================================================== *)

(** [s.split(c)] for a one-character separator: the pieces between the
    separators, empty pieces included; never the empty list. *)
Fixpoint split_on (c : ascii) (s : string) : list string :=
  match s with
  | EmptyString => [EmptyString]
  | String a s' =>
      if Ascii.eqb a c then EmptyString :: split_on c s'
      else match split_on c s' with
           | h :: t => String a h :: t
           | [] => [String a EmptyString]
           end
  end.

(** The part of an [optparse] parser the callback touches: the arguments
    still to be parsed, and the values stored so far, attribute by
    attribute. *)
Record Parser := {
  rargs : list string;
  values : list (string * list string)
}.

(** [setattr(obj, k, v)] on the attribute dictionary of an object. *)
Fixpoint setattr (d : list (string * list string)) (k : string)
    (v : list string) : list (string * list string) :=
  match d with
  | [] => [(k, v)]
  | (k', v') :: d' =>
      if String.eqb k' k then (k, v) :: d' else (k', v') :: setattr d' k v
  end.

(** [getattr(obj, k)]; [None] when the attribute is missing. *)
Fixpoint getattr (d : list (string * list string)) (k : string)
    : option (list string) :=
  match d with
  | [] => None
  | (k', v') :: d' => if String.eqb k' k then Some v' else getattr d' k
  end.

(** [list_option_callback(option, opt, value, parser)], with [dest] for
    [option.dest]. *)
Definition list_option_callback (dest : string) (value : string)
    (parser : Parser) : Parser :=
  let val := split_on "," value in
  let val := (val ++ rargs parser)%list in
  {| rargs := rargs parser; values := setattr (values parser) dest val |}.

(* ================================================================== *)
(** * Vocabulary of the properties                                     *)
(* ================================================================== *)

(** The value of a decimal numeral, most significant digit first, on top of
    an accumulator. *)
Fixpoint horner (acc : Z) (d : uint) : Z :=
  match d with
  | Nil => acc
  | D0 l => horner (10 * acc) l
  | D1 l => horner (10 * acc + 1) l
  | D2 l => horner (10 * acc + 2) l
  | D3 l => horner (10 * acc + 3) l
  | D4 l => horner (10 * acc + 4) l
  | D5 l => horner (10 * acc + 5) l
  | D6 l => horner (10 * acc + 6) l
  | D7 l => horner (10 * acc + 7) l
  | D8 l => horner (10 * acc + 8) l
  | D9 l => horner (10 * acc + 9) l
  end.

(** Every character is a decimal digit. *)
Fixpoint all_digits (s : string) : bool :=
  match s with
  | EmptyString => true
  | String a s' =>
      match PyStr.digit_of a with
      | Some _ => all_digits s'
      | None => false
      end
  end.

(** The port text with its optional [+]. *)
Definition port_text (port : string) (search : bool) : string :=
  port ++ (if search then "+" else "").

(** An endpoint address [[authkey@][host:]port[+]] written out from its
    parts. *)
Definition address (authkey host : option string) (port : string)
    (search : bool) : string :=
  (match authkey with Some k => k ++ "@" | None => "" end) ++
  (match host with Some h => h ++ ":" | None => "" end) ++
  port ++ (if search then "+" else "").

Definition or_default (d : string) (o : option string) : string :=
  match o with
  | Some s => s
  | None => d
  end.

(** The static and the dynamic particle arrays of a list, each in the
    order of the list. *)
Definition static_of (ps : list ParticleArray) : list ParticleArray :=
  filter is_static ps.

Definition dynamic_of (ps : list ParticleArray) : list ParticleArray :=
  filter (fun pa => negb (is_static pa)) ps.

(** A world with [particles_static] and [particles_dynamic] replaced. *)
Definition classified (st dy : list ParticleArray) (w : World) : World :=
  {| app := set_particles_dynamic dy (set_particles_static st (app w));
     trace := trace w |}.

(** [c] does not occur in an optional part of an address. *)
Definition lacks_opt (c : ascii) (o : option string) : bool :=
  match o with
  | Some s => PyStr.lacks c s
  | None => true
  end.


(** No output file name is set on the solver. *)
Definition sets_no_output_fname (ev : Event) : bool :=
  match ev with
  | EvSolver (set_output_fname _) => false
  | _ => true
  end.

(** Calls into the partitioning service, the barrier included. *)
Definition is_partition_event (ev : Event) : bool :=
  match ev with
  | EvZoltanNew _ | EvZoltanSetParam _ _ _ | EvZoltanUpdate _ | EvBarrier => true
  | _ => false
  end.

(** The two ways particles come into being: the restart file is read, or
    the factory is called. *)
Definition is_bootstrap_event (ev : Event) : bool :=
  match ev with
  | EvLoad _ | EvFactory _ => true
  | _ => false
  end.

(** The process reads real data: the restart file, or the factory asked for
    full (non-empty) arrays. *)
Definition reads_truth_data (ev : Event) : bool :=
  match ev with
  | EvLoad _ | EvFactory false => true
  | _ => false
  end.

(** The first thing a process of rank [r] does to obtain its particles. *)
Definition bootstrap_call (r : Z) (o : Options) : Event :=
  if r =? 0 then
    match restart_file (restart o) with
    | Some p => EvLoad p
    | None => EvFactory false
    end
  else EvFactory true.

(** [logging.basicConfig(filename=...)]: a log file is configured. *)
Definition is_basic_config (ev : Event) : bool :=
  match ev with
  | EvBasicConfig _ _ => true
  | _ => false
  end.

(** The output file names set on the solver, in order. *)
Fixpoint output_fnames_set (tr : list Event) : list string :=
  match tr with
  | [] => []
  | EvSolver (set_output_fname n) :: tr' => n :: output_fnames_set tr'
  | _ :: tr' => output_fnames_set tr'
  end.

(** The partition-manager handles passed to the solver, in order:
    [(false, h)] through [set_parallel_manager], [(true, h)] through
    [set_parallel_manager_static]. *)
Fixpoint managers_passed (tr : list Event)
    : list (bool * option ParallelManager) :=
  match tr with
  | [] => []
  | EvSolver (set_parallel_manager h) :: tr' => (false, h) :: managers_passed tr'
  | EvSolver (set_parallel_manager_static h) :: tr' => (true, h) :: managers_passed tr'
  | _ :: tr' => managers_passed tr'
  end.

(** The interfaces attached to the command manager, in order. *)
Fixpoint attached_interfaces (tr : list Event) : list Interface :=
  match tr with
  | [] => []
  | EvAddInterface i :: tr' => i :: attached_interfaces tr'
  | _ :: tr' => attached_interfaces tr'
  end.

Definition is_pool (i : Interface) : bool :=
  match i with
  | MultiprocessingInterface _ _ _ _ => true
  | _ => false
  end.

(** A command-line option that switches the multiprocessing interface off:
    [--no-multiproc], or [--multiproc] with an empty address. *)
Definition disables_pool (f : InterfaceFlag) : bool :=
  match f with
  | flag_no_multiproc => true
  | flag_multiproc EmptyString => true
  | _ => false
  end.

(** The file name [_setup_logging] settles on. *)
Definition chosen_logfile (env : Env) (filename : option string) : string :=
  match filename with
  | None => argv0_stem env ++ ".log"
  | Some f => f
  end.

(** ** Two-point program logic over the trace and the attributes *)

(** Whatever [m] does, the events it adds all satisfy [P]. *)
Definition emits_only {A} (P : Event -> bool) (m : M A) : Prop :=
  forall w, exists evs,
    trace (snd (m w)) = (trace w ++ evs)%list /\ forallb P evs = true.

(** Whatever [m] does, it leaves the attribute [f] of [self] as it was. *)
Definition keeps {X A} (f : Application -> X) (m : M A) : Prop :=
  forall w, f (app (snd (m w))) = f (app w).

(** ** Sample runs *)

Definition fluid : ParticleArray :=
  {| name := "fluid"; is_static := false; num_particles := 11 |}.
Definition solid : ParticleArray :=
  {| name := "solid"; is_static := true; num_particles := 11 |}.

(** [make_particles] of [sd.py]: a fluid and a solid; with [empty=True] the
    same arrays without particles. *)
Definition make_particles (empty : bool) : outcome (list ParticleArray) :=
  if empty
  then Ok [ {| name := "fluid"; is_static := false; num_particles := 0 |};
            {| name := "solid"; is_static := true; num_particles := 0 |} ]
  else Ok [fluid; solid].



Definition checkpoint : RestartData :=
  {| arrays := [("fluid", fluid); ("solid", solid)];
     solver_data := {| sd_t := PyFloat.two; sd_dt := PyFloat.three;
                       sd_count := 40 |} |}.

(** A process environment: [size] processes, this one being [r]. *)
Definition sample_env (mpi : bool) (size r : Z) : Env :=
  {| Has_MPI := mpi; Has_Zoltan := mpi; argv0 := "sd.py"; argv0_stem := "sd";
     comm_size := size; comm_rank := r;
     abspath := fun p => "/work/" ++ p;
     load := fun p => if String.eqb p "sd_40.npz" then Ok checkpoint
                      else Raise (Foreign "IOError");
     zoltan_initial_update := true;
     zoltan_update := fun m => m |}.

Definition sample_solver : Solver.state :=
  {| Solver.t := S754_zero false; Solver.dt := PyFloat.one; Solver.count := 0;
     Solver.dim := 1; Solver.kernel_radius_scale := PyFloat.two;
     Solver.rank := 0; Solver.pid := 0; Solver.comm := None;
     Solver.in_parallel := false |}.

(** The application object of a process, ready for [_create_particles]:
    constructed, solver bound, options parsed. *)
Definition sample_app (size r : Z) (o : Options) : Application :=
  {| is_periodic := false; domain := None; _solver := Some sample_solver;
     fname := "sd"; comm := if size >? 1 then Some COMM_WORLD else None;
     num_procs := size; rank := r; path := Some "/work/sd_output";
     options := Some o; logger := true;
     particles := []; particles_static := []; particles_dynamic := [];
     pm := None; pm_static := None |}.

Definition sample_world (size r : Z) (o : Options) : World :=
  {| app := sample_app size r o; trace := [] |}.

(** The application object the constructor builds in an environment
    ([Application()] with no arguments). *)
Definition constructed (env : Env) : Application :=
  match init env None None with
  | Ok a => a
  | Raise _ => sample_app 1 0 (default_options "")
  end.

(** The default options with [--restart-file f --rescale-dt r]. *)
Definition restart_options (f : string) (r : PyFloat.float) : Options :=
  let o := default_options "sd" in
  {| loglevel := loglevel o; logfile := logfile o; print_log := print_log o;
     final_time := final_time o; time_step := time_step o; quiet := quiet o;
     output := output o; freq := freq o;
     detailed_output := detailed_output o; output_dir := output_dir o;
     kernel := kernel o; integration := integration o; with_cl := with_cl o;
     restart := {| restart_file := Some f; rescale_dt := r |};
     zoltan := zoltan o; parallel := parallel o;
     interfaces := interfaces o; resume := resume o |}.

(* ================================================================== *)
(** * Further vocabulary and sample runs                               *)
(* ================================================================== *)

(** How often [c] occurs in [s]. *)
Fixpoint occurrences (c : ascii) (s : string) : nat :=
  match s with
  | EmptyString => 0
  | String a s' => (if Ascii.eqb a c then 1 else 0) + occurrences c s'
  end.

(** The names [_log_levels] knows. *)
Definition log_level_names : list string :=
  ["debug"; "info"; "warning"; "error"; "critical"; "none"].

Definition is_log_level_name (k : string) : bool :=
  existsb (String.eqb k) log_level_names.

(** Logging calls. *)
Definition is_logging_event (ev : Event) : bool :=
  match ev with
  | EvLoggerSetLevel _ | EvBasicConfig _ _ | EvAddStreamHandler
  | EvLoggerInfo _ => true
  | _ => false
  end.

(** An environment that differs from the sample in [sys.argv[0]] only, and
    the application constructed there. *)
Definition env_at (script : string) : Env :=
  {| Has_MPI := false; Has_Zoltan := false; argv0 := script;
     argv0_stem := "sd"; comm_size := 1; comm_rank := 0;
     abspath := fun p => "/work/" ++ p;
     load := fun _ => Raise (Foreign "IOError");
     zoltan_initial_update := true;
     zoltan_update := fun m => m |}.

Definition constructed_at (script : string) : Application :=
  constructed (env_at script).

(** Options that differ from [o] in the log level only. *)
Definition with_loglevel (l : string) (o : Options) : Options :=
  {| loglevel := l; logfile := logfile o; print_log := print_log o;
     final_time := final_time o; time_step := time_step o; quiet := quiet o;
     output := output o; freq := freq o;
     detailed_output := detailed_output o; output_dir := output_dir o;
     kernel := kernel o; integration := integration o; with_cl := with_cl o;
     restart := restart o; zoltan := zoltan o; parallel := parallel o;
     interfaces := interfaces o; resume := resume o |}.

(** Options that differ from [o] in [--with-zoltan] only. *)
Definition with_zoltan_set (b : bool) (o : Options) : Options :=
  {| loglevel := loglevel o; logfile := logfile o; print_log := print_log o;
     final_time := final_time o; time_step := time_step o; quiet := quiet o;
     output := output o; freq := freq o;
     detailed_output := detailed_output o; output_dir := output_dir o;
     kernel := kernel o; integration := integration o; with_cl := with_cl o;
     restart := restart o;
     zoltan := {| with_zoltan := b;
                  zoltan_lb_method := zoltan_lb_method (zoltan o);
                  zoltan_weights := zoltan_weights (zoltan o);
                  ghost_layers := ghost_layers (zoltan o);
                  zoltan_debug_level := zoltan_debug_level (zoltan o) |};
     parallel := parallel o; interfaces := interfaces o;
     resume := resume o |}.

(** Not a hand-over of a manager to the solver. *)
Definition passes_no_manager (ev : Event) : bool :=
  match ev with
  | EvSolver (set_parallel_manager _)
  | EvSolver (set_parallel_manager_static _) => false
  | _ => true
  end.


(** A checkpoint whose file cannot be read. *)
Definition missing_checkpoint : string := "sd_99.npz".

(** No character of the string is white space. *)
Fixpoint lacks_space (s : string) : bool :=
  match s with
  | EmptyString => true
  | String a s' => negb (PyStr.is_space a) && lacks_space s'
  end.

(** The default options with [--multiproc addr]. *)
Definition garbled_options (addr : string) : Options :=
  let o := default_options "sd" in
  {| loglevel := loglevel o; logfile := logfile o; print_log := print_log o;
     final_time := final_time o; time_step := time_step o; quiet := quiet o;
     output := output o; freq := freq o;
     detailed_output := detailed_output o; output_dir := output_dir o;
     kernel := kernel o; integration := integration o; with_cl := with_cl o;
     restart := restart o; zoltan := zoltan o; parallel := parallel o;
     interfaces := parse_interface_flags [flag_multiproc addr];
     resume := resume o |}.

(* ================================================================== *)
(** * Facts about the string primitives                                *)
(* ================================================================== *)

Module PyStrFacts.
Import PyStr.

Lemma len_nonneg (s : string) : 0 <= len s.
Proof. unfold len. lia. Qed.

Lemma len_app (a b : string) : len (a ++ b) = len a + len b.
Proof.
  unfold len. induction a as [|c a IH]; cbn [String.append String.length].
  - lia.
  - rewrite !Nat2Z.inj_succ. lia.
Qed.

Lemma len_cons (c : ascii) (s : string) : len (String c s) = len s + 1.
Proof. unfold len. cbn [String.length]. lia. Qed.

Lemma app_assoc (a b c : string) : ((a ++ b) ++ c = a ++ (b ++ c))%string.
Proof. induction a as [|x a IH]; cbn; [reflexivity | now rewrite IH]. Qed.

Lemma app_nil_r (a : string) : (a ++ "" = a)%string.
Proof. induction a as [|x a IH]; cbn; [reflexivity | now rewrite IH]. Qed.

Lemma app_inv_head (a b c : string) : (a ++ b = a ++ c)%string -> b = c.
Proof.
  induction a as [|x a IH]; cbn; intro H; [exact H|].
  injection H as H. auto.
Qed.

(** ** [find] *)

Lemma find_from_lacks (c : ascii) (s : string) (i : Z) :
  lacks c s = true -> find_from c s i = -1.
Proof.
  revert i. induction s as [|a s IH]; intros i H; cbn in *; [reflexivity|].
  apply andb_true_iff in H. destruct H as [Ha Hs].
  apply negb_true_iff in Ha. rewrite Ha. now apply IH.
Qed.

Lemma find_from_first (c : ascii) (a r : string) (i : Z) :
  lacks c a = true -> find_from c (a ++ String c r) i = i + len a.
Proof.
  revert i. induction a as [|x a IH]; intros i H; cbn [String.append find_from].
  - rewrite Ascii.eqb_refl. unfold len. cbn. lia.
  - cbn in H. apply andb_true_iff in H. destruct H as [Hx Ha].
    apply negb_true_iff in Hx. rewrite Hx, IH by exact Ha.
    rewrite len_cons. lia.
Qed.

Lemma find_lacks (c : ascii) (s : string) : lacks c s = true -> find c s = -1.
Proof. apply find_from_lacks. Qed.

Lemma find_first (c : ascii) (a r : string) :
  lacks c a = true -> find c (a ++ String c r) = len a.
Proof. intro H. unfold find. now rewrite find_from_first. Qed.

(** ** Slices *)

Lemma take_app (a r : string) : take (String.length a) (a ++ r) = a.
Proof. induction a as [|x a IH]; cbn; [now destruct r | now rewrite IH]. Qed.

Lemma drop_app (a r : string) : drop (String.length a) (a ++ r) = r.
Proof. induction a as [|x a IH]; cbn; [reflexivity | exact IH]. Qed.

Lemma clip_prefix (a r : string) : clip (len (a ++ r)) (len a) = String.length a.
Proof.
  unfold clip. rewrite len_app.
  pose proof (len_nonneg a). pose proof (len_nonneg r).
  destruct (len a <? 0) eqn:E; [apply Z.ltb_lt in E; lia|].
  rewrite Z.min_l by lia. unfold len. apply Nat2Z.id.
Qed.

Lemma slice_to_prefix (a r : string) : slice_to (a ++ r) (len a) = a.
Proof. unfold slice_to. rewrite clip_prefix. apply take_app. Qed.

Lemma slice_from_prefix (a r : string) : slice_from (a ++ r) (len a) = r.
Proof. unfold slice_from. rewrite clip_prefix. apply drop_app. Qed.

Lemma slice_from_after (a r : string) (c : ascii) :
  slice_from (a ++ String c r) (len a + 1) = r.
Proof.
  replace (a ++ String c r)%string with ((a ++ String c "") ++ r)%string
    by (rewrite app_assoc; reflexivity).
  replace (len a + 1) with (len (a ++ String c "")).
  - apply slice_from_prefix.
  - rewrite len_app, len_cons. unfold len. cbn. lia.
Qed.

Lemma slice_from_0 (s : string) : slice_from s 0 = s.
Proof.
  unfold slice_from, clip. cbn [Z.ltb Z.compare].
  pose proof (len_nonneg s). rewrite Z.min_l by lia. reflexivity.
Qed.

(** ** The last character: [s[-1]] and [s[:-1]] *)





End PyStrFacts.

(* ================================================================== *)
(** * [int] and [str] against the standard library's decimal numerals  *)
(* ================================================================== *)

Module PyIntFacts.
Import PyStr.

Lemma of_uint_acc_horner (d : uint) : forall acc : positive,
  Zpos (Pos.of_uint_acc d acc) = horner (Zpos acc) d.
Proof.
  induction d as [|d IH|d IH|d IH|d IH|d IH|d IH|d IH|d IH|d IH|d IH];
    intro acc; cbn [Pos.of_uint_acc horner];
    [reflexivity | rewrite IH; f_equal; lia ..].
Qed.

Lemma of_uint_horner (d : uint) : Z.of_N (Pos.of_uint d) = horner 0 d.
Proof.
  induction d as [|d IH|d IH|d IH|d IH|d IH|d IH|d IH|d IH|d IH|d IH];
    cbn [Pos.of_uint horner Z.of_N];
    [reflexivity | exact IH | rewrite of_uint_acc_horner; reflexivity ..].
Qed.

(** The source's digit loop reads a numeral to the same value. *)
Lemma digits_acc_numeral (s : string) : forall (d : uint) (acc : Z),
  NilEmpty.uint_of_string s = Some d -> digits_acc acc s = Some (horner acc d).
Proof.
  induction s as [|a s IH]; intros d acc H; cbn in H.
  - injection H as <-. reflexivity.
  - destruct (NilEmpty.uint_of_string s) as [d'|] eqn:E; [|discriminate].
    apply uint_of_char_spec in H.
    repeat destruct H as [H|H]; destruct H as [-> ->];
      cbn [digits_acc horner];
      match goal with
      | |- context [digit_of ?c] =>
          let v := eval vm_compute in (digit_of c) in change (digit_of c) with v
      end;
      cbv beta iota; rewrite ?Z.add_0_r; apply IH; reflexivity.
Qed.

Lemma all_digits_numeral (s : string) (d : uint) :
  NilEmpty.uint_of_string s = Some d -> all_digits s = true.
Proof.
  revert d. induction s as [|a s IH]; intros d H; cbn in H; [reflexivity|].
  destruct (NilEmpty.uint_of_string s) as [d'|] eqn:E; [|discriminate].
  apply uint_of_char_spec in H.
  repeat destruct H as [H|H]; destruct H as [-> ->];
    cbn; eapply IH; reflexivity.
Qed.

Lemma digit_not_space (a : ascii) (k : Z) :
  digit_of a = Some k -> is_space a = false.
Proof.
  destruct a as [[|] [|] [|] [|] [|] [|] [|] [|]]; cbn; congruence.
Qed.


Lemma lstrip_digits (s : string) : all_digits s = true -> lstrip s = s.
Proof.
  destruct s as [|a s]; cbn; [reflexivity|].
  destruct (digit_of a) as [k|] eqn:E; [|discriminate].
  intros _. now rewrite (digit_not_space a k E).
Qed.

Lemma rstrip_digits (s : string) : all_digits s = true -> rstrip s = s.
Proof.
  induction s as [|a s IH]; cbn; [reflexivity|].
  destruct (digit_of a) as [k|] eqn:E; [|discriminate].
  intro H. rewrite (IH H), (digit_not_space a k E). now destruct s.
Qed.

(** A digit is no sign, so [int] goes straight to the digits. *)
Lemma int_unsigned (a : ascii) (s : string) (k : Z) :
  digit_of a = Some k -> all_digits s = true ->
  int (String a s) = digits (String a s).
Proof.
  intros Ha Hs. unfold int, strip.
  assert (Hall : all_digits (String a s) = true) by (cbn; now rewrite Ha).
  rewrite (lstrip_digits _ Hall), (rstrip_digits _ Hall).
  destruct a as [[|] [|] [|] [|] [|] [|] [|] [|]];
    cbn in Ha; try discriminate; reflexivity.
Qed.

(** On a string of decimal digits [int] reads the numeral's value. *)
Lemma int_decimal (p : string) (v : Z) : decimal p = Some v -> int p = Some v.
Proof.
  unfold decimal. destruct p as [|a s]; [discriminate|].
  cbn [NilZero.uint_of_string].
  destruct (NilEmpty.uint_of_string (String a s)) as [d|] eqn:E; [|discriminate].
  cbn [option_map]. intros [= <-].
  pose proof (all_digits_numeral _ _ E) as Hall. cbn in Hall.
  destruct (digit_of a) as [k|] eqn:Ha; [|discriminate].
  rewrite (int_unsigned a s k Ha Hall).
  unfold digits. rewrite (digits_acc_numeral _ d 0 E).
  now rewrite <- of_uint_horner.
Qed.

Lemma decimal_nonempty (p : string) (v : Z) : decimal p = Some v -> p <> "".
Proof. intros H ->. discriminate. Qed.

Lemma decimal_all_digits (p : string) (v : Z) :
  decimal p = Some v -> all_digits p = true.
Proof.
  unfold decimal. destruct p as [|a s]; [discriminate|].
  cbn [NilZero.uint_of_string].
  destruct (NilEmpty.uint_of_string (String a s)) as [d|] eqn:E; [|discriminate].
  intros _. exact (all_digits_numeral _ _ E).
Qed.


(** [str] writes the numeral the reader reads back. *)
Lemma decimal_str (n : Z) : 0 <= n -> decimal (str n) = Some n.
Proof.
  intro Hn. unfold decimal, str.
  destruct n as [|p|p]; [reflexivity | | lia].
  cbn [Z.to_int NilZero.string_of_int].
  rewrite NilZero.usu by apply DecimalPos.Unsigned.to_uint_nonnil.
  cbn [option_map]. unfold N.of_uint.
  now rewrite DecimalPos.Unsigned.of_to.
Qed.

Lemma int_str (n : Z) : 0 <= n -> int (str n) = Some n.
Proof. intro H. apply int_decimal, decimal_str, H. Qed.

Lemma str_inj (m n : Z) : str m = str n -> m = n.
Proof.
  unfold str. intro H.
  assert (Hnn : forall z, Z.to_int z <> Pos Nil /\ Z.to_int z <> Neg Nil).
  { intros [|p|p]; cbn; split; try discriminate;
      intros [= E]; exact (DecimalPos.Unsigned.to_uint_nonnil p E). }
  apply DecimalZ.to_int_inj.
  assert (E : Some (Z.to_int m) = Some (Z.to_int n)).
  { rewrite <- (NilZero.isi (Z.to_int m)) by apply Hnn.
    rewrite <- (NilZero.isi (Z.to_int n)) by apply Hnn.
    now rewrite H. }
  now injection E.
Qed.

End PyIntFacts.

(* ================================================================== *)
(** * Floats: multiplying by [1.0]                                     *)
(* ================================================================== *)

Module PyFloatFacts.
Import PyFloat.

Lemma shr_1_double (p : positive) :
  shr_1 {| shr_m := Zpos p~0; shr_r := false; shr_s := false |}
  = {| shr_m := Zpos p; shr_r := false; shr_s := false |}.
Proof. reflexivity. Qed.

(** Shifting right undoes as many doublings, and loses nothing. *)
Lemma shr_iter_xO (n : positive) : forall p : positive,
  iter_pos shr_1 n
    {| shr_m := Zpos (Pos.iter xO p n); shr_r := false; shr_s := false |}
  = {| shr_m := Zpos p; shr_r := false; shr_s := false |}.
Proof.
  induction n as [n IH|n IH|]; intro p; cbn [iter_pos Pos.iter].
  - rewrite shr_1_double, !IH. reflexivity.
  - rewrite !IH. reflexivity.
  - apply shr_1_double.
Qed.

(** [x * 1.0 == x], bit for bit, for every binary64 value [x]. *)
Lemma mul_one_r (x : float) : valid x = true -> mul x one = x.
Proof.
  destruct x as [s|s| |s m e]; cbn; intros Hv.
  - now destruct s.
  - now destruct s.
  - reflexivity.
  - unfold valid, valid_binary, bounded, canonical_mantissa in Hv.
    apply andb_true_iff in Hv. destruct Hv as [Hc Hb].
    apply Z.eqb_eq in Hc.
    rewrite xorb_false_r, Pos.mul_comm.
    change (4503599627370496 * m)%positive with (Pos.iter xO m 52).
    unfold binary_round_aux, shr_fexp.
    cbn [Zdigits2 shr_record_of_loc].
    assert (Hd : Z.pos (digits2_pos (Pos.iter xO m 52))
                 = Z.pos (digits2_pos m) + 52).
    { cbn [Pos.iter digits2_pos]. rewrite !Pos2Z.inj_succ. lia. }
    rewrite Hd.
    replace (Z.pos (digits2_pos m) + 52 + (e + -52))
      with (Z.pos (digits2_pos m) + e) by lia.
    rewrite Hc.
    replace (e - (e + -52)) with 52 by lia.
    cbn [shr]. rewrite shr_iter_xO.
    cbn [shr_m loc_of_shr_record round_nearest_even Zdigits2 shr_record_of_loc].
    replace (e + -52 + 52) with e by lia.
    rewrite Hc, Z.sub_diag. cbn [shr shr_m].
    rewrite Hb. reflexivity.
Qed.

End PyFloatFacts.

(* ================================================================== *)
(** * Reasoning about method bodies                                    *)
(* ================================================================== *)

Lemma bind_ok_inv {A B} (m : M A) (k : A -> M B) (w w' : World) (b : B) :
  bind m k w = (Ok b, w') ->
  exists a w1, m w = (Ok a, w1) /\ k a w1 = (Ok b, w').
Proof.
  unfold bind. destruct (m w) as [[a|e] w1]; intro H; [|discriminate].
  now exists a, w1.
Qed.

Lemma bind_ok {A B} (m : M A) (k : A -> M B) (w w1 : World) (a : A) :
  m w = (Ok a, w1) -> bind m k w = k a w1.
Proof. unfold bind. now intros ->. Qed.

Lemma bind_raise {A B} (m : M A) (k : A -> M B) (w w1 : World) (e : exn) :
  m w = (Raise e, w1) -> bind m k w = (Raise e, w1).
Proof. unfold bind. now intros ->. Qed.

Lemma forallb_app_true {A} (P : A -> bool) (l1 l2 : list A) :
  forallb P l1 = true -> forallb P l2 = true -> forallb P (l1 ++ l2) = true.
Proof. intros H1 H2. rewrite forallb_app, H1, H2. reflexivity. Qed.

(** ** [emits_only] *)

Section EmitsOnly.
Variable P : Event -> bool.

Lemma emits_still {A} (m : M A) :
  (forall w, trace (snd (m w)) = trace w) -> emits_only P m.
Proof. intros H w. exists []. now rewrite H, List.app_nil_r. Qed.

Lemma emits_ret {A} (a : A) : emits_only P (ret a).
Proof. now apply emits_still. Qed.

Lemma emits_raise {A} (e : exn) : emits_only P (@raise A e).
Proof. now apply emits_still. Qed.

Lemma emits_lift {A} (o : outcome A) : emits_only P (lift o).
Proof. now apply emits_still. Qed.

Lemma emits_self : emits_only P self.
Proof. now apply emits_still. Qed.

Lemma emits_assign (f : Application -> Application) : emits_only P (assign f).
Proof. now apply emits_still. Qed.

Lemma emits_emit (ev : Event) : P ev = true -> emits_only P (emit ev).
Proof. intros H w. exists [ev]. cbn. now rewrite H. Qed.

Lemma emits_bind {A B} (m : M A) (k : A -> M B) :
  emits_only P m -> (forall a, emits_only P (k a)) -> emits_only P (bind m k).
Proof.
  intros Hm Hk w. destruct (Hm w) as [e1 [T1 F1]].
  unfold bind. destruct (m w) as [[a|e] w1]; cbn [snd] in *.
  - destruct (Hk a w1) as [e2 [T2 F2]].
    exists (e1 ++ e2)%list. rewrite T2, T1, List.app_assoc.
    split; [reflexivity | now apply forallb_app_true].
  - now exists e1.
Qed.

Lemma emits_when (b : bool) (m : M unit) :
  emits_only P m -> emits_only P (when b m).
Proof. destruct b; [trivial | intros _; apply emits_ret]. Qed.

Lemma emits_for_each {A} (xs : list A) (body : A -> M unit) :
  (forall x, emits_only P (body x)) -> emits_only P (for_each xs body).
Proof.
  intro H. induction xs as [|x xs IH]; cbn [for_each].
  - apply emits_ret.
  - apply emits_bind; [apply H | intros _; exact IH].
Qed.

End EmitsOnly.

(** ** [keeps] *)

Section Keeps.
Context {X : Type}.
Variable f : Application -> X.

Lemma keeps_still {A} (m : M A) :
  (forall w, app (snd (m w)) = app w) -> keeps f m.
Proof. intros H w. now rewrite H. Qed.

Lemma keeps_ret {A} (a : A) : keeps f (ret a).
Proof. now apply keeps_still. Qed.

Lemma keeps_raise {A} (e : exn) : keeps f (@raise A e).
Proof. now apply keeps_still. Qed.

Lemma keeps_lift {A} (o : outcome A) : keeps f (lift o).
Proof. now apply keeps_still. Qed.

Lemma keeps_self : keeps f self.
Proof. now apply keeps_still. Qed.

Lemma keeps_emit (ev : Event) : keeps f (emit ev).
Proof. now apply keeps_still. Qed.

Lemma keeps_assign (g : Application -> Application) :
  (forall a, f (g a) = f a) -> keeps f (assign g).
Proof. intros H w. apply H. Qed.

Lemma keeps_bind {A B} (m : M A) (k : A -> M B) :
  keeps f m -> (forall a, keeps f (k a)) -> keeps f (bind m k).
Proof.
  intros Hm Hk w. specialize (Hm w).
  unfold bind. destruct (m w) as [[a|e] w1]; cbn [snd] in *.
  - now rewrite Hk.
  - exact Hm.
Qed.

Lemma keeps_when (b : bool) (m : M unit) : keeps f m -> keeps f (when b m).
Proof. destruct b; [trivial | intros _; apply keeps_ret]. Qed.

Lemma keeps_for_each {A} (xs : list A) (body : A -> M unit) :
  (forall x, keeps f (body x)) -> keeps f (for_each xs body).
Proof.
  intro H. induction xs as [|x xs IH]; cbn [for_each].
  - apply keeps_ret.
  - apply keeps_bind; [apply H | intros _; exact IH].
Qed.

End Keeps.

(** The small helpers every method is made of. *)
Ltac unfold_helpers :=
  unfold get_opts, read_solver, with_solver, solver_call, mutate_pm,
    pz_set_param, pm_update, barrier, logger_info, call_factory.

(** Open a method body up to its state transformer. *)
Ltac run_monad :=
  unfold_helpers; unfold when, bind, self, lift, emit, assign, ret, raise; cbn.

(** Walk a method body, leaving one goal per emitted event. *)
Ltac emits_walk :=
  unfold_helpers;
  repeat first
    [ apply emits_ret | apply emits_raise | apply emits_lift
    | apply emits_self | apply emits_assign
    | apply emits_bind; [ | intro ]
    | apply emits_when
    | apply emits_for_each; intro
    | apply emits_emit; reflexivity
    | match goal with
      | |- emits_only _ (match ?x with _ => _ end) => destruct x
      end ].

(** Walk a method body, leaving one goal per assignment. *)
Ltac keeps_walk :=
  unfold_helpers;
  repeat first
    [ apply keeps_ret | apply keeps_raise | apply keeps_lift
    | apply keeps_self | apply keeps_emit
    | apply keeps_bind; [ | intro ]
    | apply keeps_when
    | apply keeps_for_each; intro
    | apply keeps_assign; intros [] ; reflexivity
    | apply keeps_assign; intro; match goal with h : PMHandle |- _ => destruct h end; reflexivity
    | match goal with
      | |- keeps _ (match ?x with _ => _ end) => destruct x
      end ].

(* ================================================================== *)
(** * The phases of [_create_particles]                                 *)
(* ================================================================== *)

(** ** Classification *)

Lemma classify_loop (ps : list ParticleArray) : forall w : World,
  for_each ps (fun pa =>
    if is_static pa
    then assign (fun a => set_particles_static (particles_static a ++ [pa]) a)
    else assign (fun a => set_particles_dynamic (particles_dynamic a ++ [pa]) a)) w
  = (Ok tt, classified (particles_static (app w) ++ static_of ps)
                       (particles_dynamic (app w) ++ dynamic_of ps) w).
Proof.
  induction ps as [|pa ps IH]; intros [a tr].
  - cbn. rewrite !List.app_nil_r. now destruct a.
  - cbn [for_each]. unfold static_of, dynamic_of in *. cbn [filter].
    destruct (is_static pa) eqn:E; cbn [negb];
      (erewrite bind_ok by reflexivity); rewrite IH;
      unfold classified; cbn; rewrite <- List.app_assoc; reflexivity.
Qed.

Lemma classify_particles_run (w : World) :
  classify_particles w
  = (Ok tt, classified (static_of (particles (app w)))
                       (dynamic_of (particles (app w))) w).
Proof.
  destruct w as [a tr]. unfold classify_particles.
  erewrite bind_ok by reflexivity.
  erewrite bind_ok by reflexivity.
  erewrite bind_ok by reflexivity.
  rewrite classify_loop. reflexivity.
Qed.

(** ** What each phase leaves alone *)

Lemma create_or_restart_keeps_num_procs env factory :
  keeps num_procs (create_or_restart env factory).
Proof. unfold create_or_restart. keeps_walk. Qed.

Lemma create_or_restart_keeps_pm env factory :
  keeps pm (create_or_restart env factory).
Proof. unfold create_or_restart. keeps_walk. Qed.

Lemma classify_particles_keeps_solver : keeps _solver classify_particles.
Proof. intro w. now rewrite classify_particles_run. Qed.

Lemma create_parallel_managers_keeps_solver env :
  keeps _solver (create_parallel_managers env).
Proof. unfold create_parallel_managers. keeps_walk. Qed.

Lemma create_parallel_managers_keeps_particles env :
  keeps particles (create_parallel_managers env).
Proof. unfold create_parallel_managers. keeps_walk. Qed.

(** ** What each phase emits *)

Lemma create_or_restart_emits env factory :
  emits_only is_bootstrap_event (create_or_restart env factory).
Proof. unfold create_or_restart. emits_walk. Qed.

Lemma classify_particles_emits P : emits_only P classify_particles.
Proof. apply emits_still. intro w. now rewrite classify_particles_run. Qed.

Lemma create_parallel_managers_emits env :
  emits_only is_partition_event (create_parallel_managers env).
Proof. unfold create_parallel_managers. emits_walk. Qed.

(** ** The runs of [create_or_restart] *)

Lemma dict_get_key (d : list (string * ParticleArray)) (k : string) :
  In k (map fst d) -> exists pa, dict_get d k = Ok pa.
Proof.
  induction d as [|[k' v] d IH]; cbn; [tauto|].
  intros [->|H].
  - rewrite String.eqb_refl. now exists v.
  - destruct (String.eqb k' k); [now exists v | auto].
Qed.

Lemma restart_particles_total (d : list (string * ParticleArray))
    (names : list string) : forall acc,
  (forall k, In k names -> In k (map fst d)) ->
  exists ps, restart_particles d names acc = Ok ps.
Proof.
  induction names as [|n names IH]; intros acc H; cbn.
  - now exists acc.
  - destruct (dict_get_key d n) as [pa ->]; [apply H; now left|].
    apply IH. intros k Hk. apply H. now right.
Qed.

(** The loop over the checkpoint's own keys never fails. *)
Lemma restart_particles_ok (d : list (string * ParticleArray)) :
  exists ps, restart_particles d (map fst d) [] = Ok ps.
Proof. apply restart_particles_total. auto. Qed.

(** Rank 0, restart file given and loaded: particles from the checkpoint,
    time, time step and count onto the solver. *)
Lemma create_or_restart_restart env factory w o f data s :
  rank (app w) = 0 -> options (app w) = Some o ->
  restart_file (restart o) = Some f -> load env f = Ok data ->
  _solver (app w) = Some s ->
  exists ps,
    restart_particles (arrays data) (map fst (arrays data)) [] = Ok ps /\
    create_or_restart env factory w =
      (Ok tt,
       {| app := set__solver
            (Some (Solver.set_time (sd_t (solver_data data))
                     (PyFloat.mul (sd_dt (solver_data data)) (rescale_dt (restart o)))
                     (sd_count (solver_data data)) s))
            (set_particles ps (app w));
          trace := (trace w ++ [EvLoad f])%list |}).
Proof.
  intros Hr Ho Hf Hl Hs.
  destruct (restart_particles_ok (arrays data)) as [ps Hps].
  exists ps. split; [exact Hps|].
  destruct w as [a tr]. cbn in *.
  unfold create_or_restart. run_monad.
  rewrite Ho, Hr. cbn. rewrite Hf. cbn. rewrite Hl, Hps. cbn.
  rewrite Hs. reflexivity.
Qed.

(** Rank 0, no restart file: the factory is called for full arrays. *)
Lemma create_or_restart_factory env f w o :
  rank (app w) = 0 -> options (app w) = Some o ->
  restart_file (restart o) = None ->
  create_or_restart env (Some f) w =
    match f false with
    | Ok ps => (Ok tt, {| app := set_particles ps (app w);
                          trace := (trace w ++ [EvFactory false])%list |})
    | Raise e => (Raise e, {| app := app w;
                              trace := (trace w ++ [EvFactory false])%list |})
    end.
Proof.
  intros Hr Ho Hf. destruct w as [a tr]. cbn in *.
  unfold create_or_restart. run_monad.
  rewrite Ho, Hr. cbn. rewrite Hf. cbn.
  now destruct (f false).
Qed.

(** Any other rank: the factory is called with [empty=True]. *)
Lemma create_or_restart_worker env f w o :
  rank (app w) <> 0 -> options (app w) = Some o ->
  create_or_restart env (Some f) w =
    match f true with
    | Ok ps => (Ok tt, {| app := set_particles ps (app w);
                          trace := (trace w ++ [EvFactory true])%list |})
    | Raise e => (Raise e, {| app := app w;
                              trace := (trace w ++ [EvFactory true])%list |})
    end.
Proof.
  intros Hr Ho. destruct w as [a tr]. cbn in *.
  apply Z.eqb_neq in Hr.
  unfold create_or_restart. run_monad.
  rewrite Ho, Hr. cbn.
  now destruct (f true).
Qed.

(** In a single process no manager is created. *)
Lemma create_parallel_managers_single env w :
  num_procs (app w) = 1 ->
  create_parallel_managers env w =
    (Ok tt, {| app := set_pm_static None (set_pm None (app w));
               trace := trace w |}).
Proof.
  intro H. destruct w as [a tr]. cbn in H.
  unfold create_parallel_managers. run_monad. rewrite H.
  reflexivity.
Qed.

Lemma create_parallel_managers_serial env w :
  (num_procs (app w) >? 1) = false ->
  create_parallel_managers env w =
    (Ok tt, {| app := set_pm_static None (set_pm None (app w));
               trace := trace w |}).
Proof.
  intro H. destruct w as [a tr]. cbn in H.
  unfold create_parallel_managers. run_monad. rewrite H.
  reflexivity.
Qed.



Lemma attach_managers_emits :
  emits_only (fun ev => negb (is_bootstrap_event ev)) attach_managers.
Proof. unfold attach_managers. emits_walk. Qed.

Lemma attach_managers_keeps {X} (f : Application -> X) : keeps f attach_managers.
Proof. unfold attach_managers. keeps_walk. Qed.

Lemma forallb_weaken {A} (P Q : A -> bool) (l : list A) :
  (forall x, P x = true -> Q x = true) ->
  forallb P l = true -> forallb Q l = true.
Proof.
  intro H. induction l as [|x l IH]; cbn; [trivial|].
  intro E. apply andb_true_iff in E. destruct E as [E1 E2].
  now rewrite (H x E1), IH.
Qed.

Lemma emits_weaken {A} (P Q : Event -> bool) (m : M A) :
  (forall ev, P ev = true -> Q ev = true) -> emits_only P m -> emits_only Q m.
Proof.
  intros H Hm w. destruct (Hm w) as [evs [T F]].
  exists evs. split; [exact T | exact (forallb_weaken P Q evs H F)].
Qed.

(** After the particles exist, nothing reads a checkpoint or calls the
    factory any more. *)
Lemma after_bootstrap_emits env :
  emits_only (fun ev => negb (is_bootstrap_event ev))
    (classify_particles ;; partition_particles env).
Proof.
  apply emits_bind; [apply classify_particles_emits | intros _].
  unfold partition_particles.
  apply emits_bind; [| intros _; apply attach_managers_emits].
  apply (emits_weaken is_partition_event); [|apply create_parallel_managers_emits].
  now intros [].
Qed.

(* ================================================================== *)
(** * Properties of the bootstrap                                      *)
(* ================================================================== *)

Lemma filter_lengths {A} (p : A -> bool) (l : list A) :
  (List.length (filter p l) + List.length (filter (fun x => negb (p x)) l)
   = List.length l)%nat.
Proof.
  induction l as [|x l IH]; cbn; [reflexivity|].
  destruct (p x); cbn; lia.
Qed.

(** C7.  The classification step splits the particle arrays by their
    [is_static] flag: [particles_static] is the sub-list of the static
    arrays and [particles_dynamic] the sub-list of the others, each in the
    original order; the list itself is untouched, every array lands in
    exactly one of the two, and the step neither fails nor calls out. *)
Theorem classification_splits_by_is_static (w : World) :
  fst (classify_particles w) = Ok tt /\
  particles_static (app (snd (classify_particles w)))
    = filter is_static (particles (app w)) /\
  particles_dynamic (app (snd (classify_particles w)))
    = filter (fun pa => negb (is_static pa)) (particles (app w)) /\
  particles (app (snd (classify_particles w))) = particles (app w) /\
  trace (snd (classify_particles w)) = trace w /\
  (forall pa, In pa (particles (app w)) ->
     if is_static pa
     then In pa (particles_static (app (snd (classify_particles w)))) /\
          ~ In pa (particles_dynamic (app (snd (classify_particles w))))
     else In pa (particles_dynamic (app (snd (classify_particles w)))) /\
          ~ In pa (particles_static (app (snd (classify_particles w))))) /\
  (List.length (particles_static (app (snd (classify_particles w)))) +
   List.length (particles_dynamic (app (snd (classify_particles w))))
   = List.length (particles (app w)))%nat.
Proof.
  rewrite classify_particles_run. destruct w as [a tr].
  unfold classified, static_of, dynamic_of. cbn.
  repeat split.
  - intros pa Hin. destruct (is_static pa) eqn:E; split.
    + apply filter_In. now split.
    + intro H. apply filter_In in H. destruct H as [_ H].
      rewrite E in H. discriminate.
    + apply filter_In. split; [exact Hin | now rewrite E].
    + intro H. apply filter_In in H. destruct H as [_ H]. congruence.
  - apply filter_lengths.
Qed.

Lemma managers_passed_app (l1 l2 : list Event) :
  managers_passed (l1 ++ l2) = (managers_passed l1 ++ managers_passed l2)%list.
Proof.
  induction l1 as [|ev l1 IH]; [reflexivity|].
  destruct ev as [| | | | | | | | | | |c| | | |]; cbn; try exact IH.
  destruct c; cbn; rewrite ?IH; reflexivity.
Qed.

Lemma managers_passed_bootstrap (l : list Event) :
  forallb is_bootstrap_event l = true -> managers_passed l = [].
Proof.
  induction l as [|ev l IH]; [reflexivity|].
  cbn [forallb]. intro H. apply andb_true_iff in H. destruct H as [H1 H2].
  destruct ev; try discriminate; cbn; auto.
Qed.

(** C5.  In a single-process run the bootstrap makes no call into the
    partitioning service, and when it returns both manager attributes are
    [None] and [None] is what the solver was handed, once for the dynamic
    and once for the static manager. *)
Theorem single_process_is_unpartitioned (env : Env) (factory : Factory)
    (w : World) :
  num_procs (app w) = 1 ->
  exists evs,
    trace (snd (_create_particles env factory w)) = (trace w ++ evs)%list /\
    forallb (fun ev => negb (is_partition_event ev)) evs = true /\
    (forall ps, fst (_create_particles env factory w) = Ok ps ->
       pm (app (snd (_create_particles env factory w))) = None /\
       pm_static (app (snd (_create_particles env factory w))) = None /\
       managers_passed evs = [(false, None); (true, None)]).
Proof.
  intro Hn. unfold _create_particles.
  destruct (create_or_restart_emits env factory w) as [e1 [T1 F1]].
  pose proof (create_or_restart_keeps_num_procs env factory w) as K1.
  destruct (create_or_restart env factory w) as [[[]|e] w1] eqn:R1;
    cbn [snd] in T1, K1.
  - erewrite bind_ok by exact R1.
    erewrite bind_ok by apply classify_particles_run.
    unfold partition_particles.
    erewrite bind_ok
      by (apply create_parallel_managers_single; cbn; congruence).
    destruct w1 as [a1 tr1]. cbn [app trace] in *.
    unfold attach_managers.
    destruct (_solver a1) as [s|] eqn:Hs; run_monad; rewrite ?Hs; cbn;
      rewrite ?Hs; cbn.
    + exists (e1 ++ [EvSolver (set_parallel_manager None);
                          EvSolver (set_parallel_manager_static None)])%list.
      rewrite T1, <- !List.app_assoc. cbn.
      split; [reflexivity|]. split.
      * apply forallb_app_true; [|reflexivity].
        apply (forallb_weaken is_bootstrap_event); [now intros []|exact F1].
      * intros ps _. repeat split.
        rewrite managers_passed_app, (managers_passed_bootstrap _ F1).
        reflexivity.
    + exists e1. rewrite T1. split; [reflexivity|]. split.
      * apply (forallb_weaken is_bootstrap_event); [now intros []|exact F1].
      * intros ps H. discriminate.
  - erewrite bind_raise by exact R1. cbn.
    exists e1. split; [exact T1|]. split.
    + apply (forallb_weaken is_bootstrap_event); [now intros []|exact F1].
    + intros ps H. discriminate.
Qed.

(** A single process with the factory of [sd.py]: the hypothesis of C5
    holds and the run returns. *)
Lemma single_process_is_unpartitioned_witness :
  fst (_create_particles (sample_env false 1 0) (Some make_particles)
         (sample_world 1 0 (default_options "sd"))) = Ok [fluid; solid] /\
  exists evs,
    trace (snd (_create_particles (sample_env false 1 0) (Some make_particles)
                  (sample_world 1 0 (default_options "sd"))))
      = (trace (sample_world 1 0 (default_options "sd")) ++ evs)%list /\
    forallb (fun ev => negb (is_partition_event ev)) evs = true /\
    (forall ps,
       fst (_create_particles (sample_env false 1 0) (Some make_particles)
              (sample_world 1 0 (default_options "sd"))) = Ok ps ->
       pm (app (snd (_create_particles (sample_env false 1 0)
                       (Some make_particles)
                       (sample_world 1 0 (default_options "sd"))))) = None /\
       pm_static (app (snd (_create_particles (sample_env false 1 0)
                              (Some make_particles)
                              (sample_world 1 0 (default_options "sd")))))
         = None /\
       managers_passed evs = [(false, None); (true, None)]).
Proof.
  split; [reflexivity|].
  apply (single_process_is_unpartitioned (sample_env false 1 0)
           (Some make_particles) (sample_world 1 0 (default_options "sd"))).
  reflexivity.
Defined.

(** Whatever happens next, [create_or_restart] makes exactly one call for
    particles, and which one is decided by the rank and the restart option
    alone. *)
Lemma create_or_restart_trace env f w o :
  options (app w) = Some o ->
  trace (snd (create_or_restart env (Some f) w))
  = (trace w ++ [bootstrap_call (rank (app w)) o])%list.
Proof.
  intro Ho. destruct w as [a tr]. cbn [app trace] in *.
  unfold bootstrap_call, create_or_restart. run_monad. rewrite Ho. cbn.
  destruct (rank a =? 0).
  - destruct (restart_file (restart o)) as [p|]; cbn.
    + destruct (load env p) as [data|e]; cbn; [|reflexivity].
      destruct (restart_particles _ _ _) as [ps|e]; cbn; [|reflexivity].
      destruct (_solver a); reflexivity.
    + destruct (f false); reflexivity.
  - destruct (f true); reflexivity.
Qed.

Lemma create_particles_trace env f w o :
  options (app w) = Some o ->
  exists rest,
    trace (snd (_create_particles env (Some f) w))
    = (trace w ++ bootstrap_call (rank (app w)) o :: rest)%list /\
    forallb (fun ev => negb (is_bootstrap_event ev)) rest = true.
Proof.
  intro Ho. pose proof (create_or_restart_trace env f w o Ho) as T1.
  unfold _create_particles.
  destruct (create_or_restart env (Some f) w) as [[[]|e] w1] eqn:R1;
    cbn [snd] in T1.
  - erewrite bind_ok by exact R1.
    destruct (after_bootstrap_emits env w1) as [rest [T2 F2]].
    exists rest. rewrite T2, T1, <- List.app_assoc. now split.
  - erewrite bind_raise by exact R1. exists []. now split.
Qed.

Lemma no_bootstrap_no_truth (l : list Event) :
  forallb (fun ev => negb (is_bootstrap_event ev)) l = true ->
  existsb reads_truth_data l = false.
Proof.
  induction l as [|ev l IH]; [reflexivity|].
  cbn [forallb existsb]. intro H. apply andb_true_iff in H.
  destruct H as [H1 H2]. rewrite (IH H2).
  destruct ev as [| [|] | | | | | | | | | | | | | |]; cbn in *;
    congruence.
Qed.

(** C6.  A process of rank greater than 0 obtains its particles by calling
    the factory with [empty=True], and neither reads the restart file nor
    calls the factory again, whatever the restart option says.  Over all
    ranks, the process reads real data (the restart file, or the factory
    without [empty]) exactly when its rank is 0. *)
Theorem only_rank_zero_is_data_source (env : Env)
    (f : bool -> outcome (list ParticleArray)) (w : World) (o : Options) :
  options (app w) = Some o ->
  exists evs,
    trace (snd (_create_particles env (Some f) w)) = (trace w ++ evs)%list /\
    (0 < rank (app w) ->
     exists rest,
       evs = EvFactory true :: rest /\
       forallb (fun ev => negb (is_bootstrap_event ev)) rest = true) /\
    existsb reads_truth_data evs = (rank (app w) =? 0).
Proof.
  intro Ho. destruct (create_particles_trace env f w o Ho) as [rest [T F]].
  exists (bootstrap_call (rank (app w)) o :: rest). split; [exact T|].
  unfold bootstrap_call. split.
  - intro Hr. exists rest.
    destruct (rank (app w) =? 0) eqn:E; [apply Z.eqb_eq in E; lia|].
    now split.
  - cbn [existsb]. rewrite (no_bootstrap_no_truth rest F).
    destruct (rank (app w) =? 0); [|reflexivity].
    now destruct (restart_file (restart o)).
Qed.

(** Rank 1 of two processes, with a restart file on the command line. *)
Lemma only_rank_zero_is_data_source_witness :
  exists evs,
    trace (snd (_create_particles (sample_env true 2 1) (Some make_particles)
                  (sample_world 2 1 (restart_options "sd_40.npz" PyFloat.one))))
      = (trace (sample_world 2 1 (restart_options "sd_40.npz" PyFloat.one))
         ++ evs)%list /\
    (0 < rank (app (sample_world 2 1 (restart_options "sd_40.npz" PyFloat.one))) ->
     exists rest,
       evs = EvFactory true :: rest /\
       forallb (fun ev => negb (is_bootstrap_event ev)) rest = true) /\
    existsb reads_truth_data evs
      = (rank (app (sample_world 2 1 (restart_options "sd_40.npz" PyFloat.one)))
         =? 0).
Proof.
  apply (only_rank_zero_is_data_source (sample_env true 2 1) make_particles
           (sample_world 2 1 (restart_options "sd_40.npz" PyFloat.one))
           (restart_options "sd_40.npz" PyFloat.one)).
  reflexivity.
Defined.

Lemma after_bootstrap_keeps_solver env :
  keeps _solver (classify_particles ;; partition_particles env).
Proof.
  apply keeps_bind; [apply classify_particles_keeps_solver | intros _].
  unfold partition_particles.
  apply keeps_bind; [apply create_parallel_managers_keeps_solver | intros _].
  apply attach_managers_keeps.
Qed.

(** C1.  On rank 0 with a restart file that loads, the bootstrap leaves the
    solver with the checkpoint's [t] and [count] and with the checkpoint's
    [dt] times the rescale factor; with the factor [1.0] and a binary64
    [dt] that product is the checkpoint's [dt] itself. *)
Theorem restart_restores_time_and_rescales_dt (env : Env) (factory : Factory)
    (w : World) (o : Options) (f : string) (data : RestartData)
    (s : Solver.state) :
  rank (app w) = 0 ->
  options (app w) = Some o ->
  restart_file (restart o) = Some f ->
  load env f = Ok data ->
  _solver (app w) = Some s ->
  exists s',
    _solver (app (snd (_create_particles env factory w))) = Some s' /\
    Solver.t s' = sd_t (solver_data data) /\
    Solver.dt s'
      = PyFloat.mul (sd_dt (solver_data data)) (rescale_dt (restart o)) /\
    Solver.count s' = sd_count (solver_data data) /\
    (rescale_dt (restart o) = PyFloat.one ->
     PyFloat.valid (sd_dt (solver_data data)) = true ->
     Solver.dt s' = sd_dt (solver_data data)).
Proof.
  intros Hr Ho Hf Hl Hs.
  destruct (create_or_restart_restart env factory w o f data s Hr Ho Hf Hl Hs)
    as [ps [_ R1]].
  eexists. split.
  - unfold _create_particles. erewrite bind_ok by exact R1.
    rewrite after_bootstrap_keeps_solver. reflexivity.
  - cbn. repeat split.
    intros -> Hv. now apply PyFloatFacts.mul_one_r.
Qed.

(** Restarting [sd.py] from a checkpoint at count 40 with
    [--rescale-dt 1.0]: the run returns and the solver holds the saved
    [t], [dt] and [count]. *)
Lemma restart_restores_time_and_rescales_dt_witness :
  fst (_create_particles (sample_env false 1 0) None
         (sample_world 1 0 (restart_options "sd_40.npz" PyFloat.one)))
    = Ok [fluid; solid] /\
  exists s',
    _solver (app (snd (_create_particles (sample_env false 1 0) None
                         (sample_world 1 0
                            (restart_options "sd_40.npz" PyFloat.one)))))
      = Some s' /\
    Solver.t s' = PyFloat.two /\
    Solver.dt s' = PyFloat.mul PyFloat.three PyFloat.one /\
    Solver.count s' = 40 /\
    (PyFloat.one = PyFloat.one -> PyFloat.valid PyFloat.three = true ->
     Solver.dt s' = PyFloat.three).
Proof.
  split; [reflexivity|].
  exact (restart_restores_time_and_rescales_dt (sample_env false 1 0) None
           (sample_world 1 0 (restart_options "sd_40.npz" PyFloat.one))
           (restart_options "sd_40.npz" PyFloat.one) "sd_40.npz" checkpoint
           sample_solver eq_refl eq_refl eq_refl eq_refl eq_refl).
Defined.

Example mul_by_one_computes :
  PyFloat.mul PyFloat.three PyFloat.one = PyFloat.three.
Proof. reflexivity. Qed.

(** ** The factory's result on rank 0 *)


(** ** The initial-update flag of the two managers *)

(** C4, evaluated on two processes with the fluid and the solid of
    [sd.py]: the bootstrap returns, both managers exist and have been
    updated, the dynamic manager's [initial_update] is cleared, and the
    static manager's [initial_update] is still what its constructor set;
    the second [initial_update = False] went to the dynamic manager again. *)
Theorem static_manager_flag_stays_set :
  fst (_create_particles (sample_env true 2 0) (Some make_particles)
         (sample_world 2 0 (default_options "sd"))) = Ok [fluid; solid] /\
  option_map pm_particles
    (pm_static (app (snd (_create_particles (sample_env true 2 0)
                            (Some make_particles)
                            (sample_world 2 0 (default_options "sd"))))))
    = Some [solid] /\
  existsb (fun ev => match ev with EvZoltanUpdate PMStatic => true | _ => false end)
    (trace (snd (_create_particles (sample_env true 2 0) (Some make_particles)
                   (sample_world 2 0 (default_options "sd"))))) = true /\
  option_map initial_update
    (pm (app (snd (_create_particles (sample_env true 2 0)
                     (Some make_particles)
                     (sample_world 2 0 (default_options "sd"))))))
    = Some false /\
  option_map initial_update
    (pm_static (app (snd (_create_particles (sample_env true 2 0)
                            (Some make_particles)
                            (sample_world 2 0 (default_options "sd"))))))
    = Some true.
Proof. repeat split. Qed.

(** In general: in a parallel run with static particle arrays, the static
    manager the bootstrap leaves is exactly the object its [update()]
    returned; the application assigns nothing to it afterwards, its
    [initial_update] included, while the dynamic manager's flag is
    cleared. *)
Lemma static_manager_never_marked (env : Env) (w : World) (o : Options)
    (s : Solver.state) (c : Comm) :
  1 < num_procs (app w) ->
  options (app w) = Some o ->
  with_zoltan (zoltan o) = true ->
  Has_Zoltan env = true -> Has_MPI env = true ->
  _solver (app w) = Some s ->
  comm (app w) = Some c ->
  particles_static (app w) <> [] ->
  fst (create_parallel_managers env w) = Ok tt /\
  option_map initial_update (pm (app (snd (create_parallel_managers env w))))
    = Some false /\
  exists m0,
    initial_update m0 = zoltan_initial_update env /\
    pm_particles m0 = particles_static (app w) /\
    pm_static (app (snd (create_parallel_managers env w)))
      = Some (zoltan_update env m0).
Proof.
  intros Hn Ho Hz HZ HM Hs Hc Hst.
  destruct w as [a tr]. cbn [app trace] in *.
  apply Z.gtb_lt in Hn.
  destruct (particles_static a) as [|pa st] eqn:Est; [congruence|].
  unfold create_parallel_managers. run_monad.
  assert (Hlen : (Z.of_nat (List.length (pa :: st)) >? 0) = true)
    by (apply Z.gtb_lt; cbn [List.length]; lia).
  repeat (first [rewrite Hn | rewrite Ho | rewrite Hz | rewrite HZ
                | rewrite HM | rewrite Hs | rewrite Est | rewrite Hlen
                | rewrite Hc]; cbn -[Z.of_nat List.length]).
  split; [reflexivity|]. split; [reflexivity|].
  eexists. split; [|split; [|reflexivity]]; reflexivity.
Qed.

(* ================================================================== *)
(** * Logging                                                          *)
(* ================================================================== *)

Lemma len_positive (s : string) : (PyStr.len s >? 0) = true <-> s <> "".
Proof.
  destruct s as [|c s].
  - cbn. split; [discriminate | congruence].
  - split; [discriminate|]. intros _. rewrite PyStrFacts.len_cons.
    apply Z.gtb_lt. pose proof (PyStrFacts.len_nonneg s). lia.
Qed.

(** Joining onto a path that is a string never fails. *)
Lemma os_path_join_some (p b : string) :
  exists r, os_path_join (Some p) b = Ok r.
Proof.
  assert (Hinner : exists r,
            match PyStr.getitem p (-1) with
            | None => Ok (p ++ b)%string
            | Some "/"%char => Ok (p ++ b)%string
            | Some _ => Ok (p ++ "/" ++ b)%string
            end = Ok r).
  { destruct (PyStr.getitem p (-1)) as [c|]; [|now eexists].
    destruct c as [[|] [|] [|] [|] [|] [|] [|] [|]]; now eexists. }
  unfold os_path_join. destruct b as [|c s]; [exact Hinner|].
  destruct c as [[|] [|] [|] [|] [|] [|] [|] [|]];
    first [exact Hinner | now eexists].
Qed.

(** C10.  [_setup_logging] configures a log file only in a parallel run
    and only for a non-empty file name: whatever the file name, level and
    stream flag, a single process never does, and a parallel run with a
    non-empty name and an output path does. *)
Theorem log_file_only_in_parallel (env : Env) (filename : option string)
    (level : Z) (stream : bool) (w : World) :
  exists evs,
    trace (snd (_setup_logging env filename level stream w))
      = (trace w ++ evs)%list /\
    (existsb is_basic_config evs = true ->
       1 < num_procs (app w) /\ chosen_logfile env filename <> "") /\
    (num_procs (app w) = 1 -> existsb is_basic_config evs = false) /\
    (1 < num_procs (app w) -> chosen_logfile env filename <> "" ->
     forall p, path (app w) = Some p ->
     existsb is_basic_config evs = true).
Proof.
  destruct w as [a tr]. cbn [app trace].
  unfold _setup_logging. fold (chosen_logfile env filename).
  pose proof (len_positive (chosen_logfile env filename)) as Hlen.
  run_monad.
  destruct (PyStr.len (chosen_logfile env filename) >? 0) eqn:El; cbn.
  - assert (Hne : chosen_logfile env filename <> "") by now apply Hlen.
    destruct (os_path_join (path a) (chosen_logfile env filename))
      as [lfn|e] eqn:Ej; cbn.
    + destruct (num_procs a >? 1) eqn:En; cbn.
      * apply Z.gtb_lt in En.
        destruct stream; cbn; rewrite <- !List.app_assoc; cbn;
          eexists; (split; [reflexivity|]); cbn;
          repeat split; auto; lia.
      * assert (~ 1 < num_procs a)
          by (intro Hlt; apply Z.gtb_lt in Hlt; congruence).
        destruct stream; cbn; rewrite <- ?List.app_assoc; cbn;
          eexists; (split; [reflexivity|]); cbn;
          repeat split; auto; try discriminate; tauto.
    + exists [EvLoggerSetLevel level]. split; [reflexivity|]. cbn.
      repeat split; try discriminate.
      intros _ _ p Hp. rewrite Hp in Ej.
      destruct (os_path_join_some p (chosen_logfile env filename)) as [r Hr].
      congruence.
  - assert (Hempty : ~ chosen_logfile env filename <> "").
    { intro Hne. apply Hlen in Hne. congruence. }
    destruct stream; cbn; rewrite <- ?List.app_assoc; cbn;
      eexists; (split; [reflexivity|]); cbn;
      repeat split; auto; try discriminate; tauto.
Qed.

(* ================================================================== *)
(** * Endpoint addresses                                               *)
(* ================================================================== *)

Module AddressFacts.
Import PyStr PyStrFacts PyIntFacts.

Lemma lacks_app (c : ascii) (a b : string) :
  lacks c (a ++ b) = lacks c a && lacks c b.
Proof.
  induction a as [|x a IH]; cbn; [reflexivity|].
  now rewrite IH, andb_assoc.
Qed.


Lemma digit_not_colon (a : ascii) (k : Z) :
  digit_of a = Some k -> Ascii.eqb a ":" = false.
Proof.
  destruct a as [[|] [|] [|] [|] [|] [|] [|] [|]]; cbn; congruence.
Qed.


Lemma digits_lack_colon (s : string) : all_digits s = true -> lacks ":" s = true.
Proof.
  induction s as [|a s IH]; cbn; [reflexivity|].
  destruct (digit_of a) as [k|] eqn:E; [|discriminate].
  intro H. now rewrite (digit_not_colon a k E), IH.
Qed.

Lemma port_text_lacks (c : ascii) (port : string) (search : bool) :
  lacks c port = true -> Ascii.eqb "+" c = false ->
  lacks c (port_text port search) = true.
Proof.
  intros Hp Hc. unfold port_text. rewrite lacks_app, Hp.
  destruct search; cbn [lacks andb]; [now rewrite Hc | reflexivity].
Qed.

(** Cutting a string at the first [c]: with an optional part [pre] in
    front, closed by [c], the part is found (or the default taken) and the
    rest is what follows. *)
Lemma cut_at_first (c : ascii) (pre : option string) (rest d : string) :
  lacks_opt c pre = true ->
  (pre = None -> lacks c rest = true) ->
  let s := ((match pre with Some k => k ++ String c "" | None => "" end)
            ++ rest)%string in
  (if find c s =? -1 then d else slice_to s (find c s)) = or_default d pre /\
  slice_from s (find c s + 1) = rest.
Proof.
  intros Hpre Hrest. destruct pre as [k|]; cbn [lacks_opt or_default] in *.
  - cbn zeta. rewrite PyStrFacts.app_assoc. cbn [String.append].
    rewrite (find_first c k rest Hpre).
    pose proof (len_nonneg k).
    destruct (len k =? -1) eqn:E; [apply Z.eqb_eq in E; lia|].
    split; [apply slice_to_prefix | apply slice_from_after].
  - cbn zeta. cbn [String.append].
    rewrite (find_lacks c rest (Hrest eq_refl)). cbn.
    split; [reflexivity | apply slice_from_0].
Qed.



End AddressFacts.



(* ================================================================== *)
(** * [setup]: the output file name                                    *)
(* ================================================================== *)

Lemma output_fnames_set_app (l1 l2 : list Event) :
  output_fnames_set (l1 ++ l2)
  = (output_fnames_set l1 ++ output_fnames_set l2)%list.
Proof.
  induction l1 as [|ev l1 IH]; [reflexivity|].
  destruct ev as [| | | | | | | | | | |c| | | |]; cbn; try exact IH.
  destruct c; cbn; rewrite ?IH; reflexivity.
Qed.

Lemma output_fnames_set_none (l : list Event) :
  forallb sets_no_output_fname l = true -> output_fnames_set l = [].
Proof.
  induction l as [|ev l IH]; [reflexivity|].
  cbn [forallb]. intro H. apply andb_true_iff in H. destruct H as [H1 H2].
  destruct ev as [| | | | | | | | | | |c| | | |]; cbn; auto.
  destruct c; cbn in *; auto; discriminate.
Qed.

Ltac unfold_setup :=
  unfold setup_particles, _process_command_line, _setup_logging,
    _create_particles, create_or_restart, classify_particles,
    partition_particles, create_parallel_managers, attach_managers,
    add_solver_interfaces.

Lemma setup_particles_emits env solver parsed nnps factory :
  emits_only sets_no_output_fname
    (setup_particles env solver parsed nnps factory).
Proof. unfold_setup. emits_walk. Qed.

Lemma add_solver_interfaces_emits o :
  emits_only sets_no_output_fname (add_solver_interfaces o).
Proof. unfold_setup. emits_walk. Qed.

Lemma setup_particles_keeps_num_procs env solver parsed nnps factory :
  keeps num_procs (setup_particles env solver parsed nnps factory).
Proof. unfold_setup. keeps_walk. Qed.

Lemma setup_particles_keeps_rank env solver parsed nnps factory :
  keeps rank (setup_particles env solver parsed nnps factory).
Proof. unfold_setup. keeps_walk. Qed.

(** A process that counts more than one has MPI. *)
Lemma init_parallel_has_mpi env fname0 dom a :
  init env fname0 dom = Ok a -> 1 < num_procs a -> Has_MPI env = true.
Proof.
  unfold init. destruct (Has_MPI env); [reflexivity|].
  intros [= <-]. cbn. lia.
Qed.

Lemma keeps_after_assign {X A} (f : Application -> X)
    (g : Application -> Application) (k : M A) (x : X) :
  (forall a, f (g a) = x) -> keeps f k ->
  forall w, f (app (snd ((assign g ;; k) w))) = x.
Proof.
  intros Hg Hk w. unfold bind, assign. rewrite Hk. apply Hg.
Qed.

(** Once the command line is processed, [self.options] is what the parser
    returned. *)
Lemma process_command_line_options env parsed w :
  options (app (snd (_process_command_line env parsed w))) = Some parsed.
Proof.
  unfold _process_command_line.
  apply keeps_after_assign; [reflexivity|].
  unfold _setup_logging. keeps_walk.
Qed.

(** Take the first statement off a body that returned. *)
Tactic Notation "bind_inv" hyp(H) "as" ident(w) ident(R) :=
  let a := fresh "x" in
  apply bind_ok_inv in H; destruct H as (a & w & R & H).

Ltac bind_skip H :=
  let a := fresh "x" in
  let w := fresh "w" in
  let R := fresh "R" in
  apply bind_ok_inv in H; destruct H as (a & w & R & H).

(** The [options] local of [setup] is the parsed command line. *)
Lemma setup_particles_returns env solver parsed nnps factory w o w1 :
  setup_particles env solver parsed nnps factory w = (Ok o, w1) ->
  o = parsed.
Proof.
  intro H. unfold setup_particles in H.
  bind_inv H as wa Ra. bind_inv H as wb Rb. bind_inv H as wc Rc.
  pose proof (process_command_line_options env parsed wb) as Ho.
  rewrite Rc in Ho. cbn [snd] in Ho.
  bind_inv H as wd Rd.
  unfold get_opts, bind, self, ret, raise in Rd. rewrite Ho in Rd.
  injection Rd as <- <-.
  do 7 bind_skip H.
  unfold ret in H. now injection H.
Qed.

(** What [setup_output] does when it returns. *)
Lemma setup_output_trace env o w w2 :
  setup_output env o w = (Ok tt, w2) ->
  output_fnames_set (trace w2)
  = (output_fnames_set (trace w) ++ [output_fname env (app w) o])%list.
Proof.
  destruct w as [a tr]. unfold setup_output. cbn [app trace].
  destruct (_solver a) as [s|] eqn:Hs; run_monad; rewrite Hs; cbn;
    [|discriminate].
  destruct (num_procs a >? 1); cbn; intros [= <-]; cbn;
    rewrite !output_fnames_set_app; cbn; now rewrite !List.app_nil_r.
Qed.

(** C8.  For an application object as its constructor builds it, a [setup]
    that returns has set the solver's output file name exactly once: to the
    [-o] name followed by [_] and the rank when there is more than one
    process, and to the [-o] name itself otherwise.  Names given to
    different ranks differ. *)
Theorem output_name_carries_rank (env : Env) (fname0 : option string)
    (dom : option Domain) (a : Application) (solver : Solver.state)
    (parsed : Options) (nnps : bool) (factory : Factory) (w' : World) :
  init env fname0 dom = Ok a ->
  setup env solver parsed nnps factory {| app := a; trace := [] |}
    = (Ok tt, w') ->
  output_fnames_set (trace w')
    = [if num_procs a >? 1
       then output parsed ++ "_" ++ PyStr.str (rank a)
       else output parsed] /\
  (forall base r1 r2,
     (base ++ "_" ++ PyStr.str r1 = base ++ "_" ++ PyStr.str r2)%string ->
     r1 = r2).
Proof.
  intros Hinit H. split.
  - unfold setup in H. bind_inv H as w R. bind_inv H as w0 R0.
    pose proof (setup_particles_returns _ _ _ _ _ _ _ _ R) as ->.
    destruct (setup_particles_emits env solver parsed nnps factory
                {| app := a; trace := [] |}) as [e1 [T1 F1]].
    pose proof (setup_particles_keeps_num_procs env solver parsed nnps
                  factory {| app := a; trace := [] |}) as Kn.
    pose proof (setup_particles_keeps_rank env solver parsed nnps
                  factory {| app := a; trace := [] |}) as Kr.
    rewrite R in T1, Kn, Kr. cbn [snd app trace] in T1, Kn, Kr.
    destruct (add_solver_interfaces_emits parsed w0) as [e3 [T3 F3]].
    rewrite H in T3. cbn [snd] in T3.
    rewrite T3, output_fnames_set_app, (output_fnames_set_none e3 F3).
    destruct x0.
    rewrite (setup_output_trace env parsed w w0 R0), T1.
    cbn [List.app]. rewrite (output_fnames_set_none e1 F1). cbn.
    f_equal. unfold output_fname. rewrite Kn, Kr.
    destruct (num_procs a >? 1) eqn:En; [|now destruct (Has_MPI env)].
    apply Z.gtb_lt in En.
    now rewrite (init_parallel_has_mpi env fname0 dom a Hinit En).
  - intros base r1 r2 E.
    apply PyStrFacts.app_inv_head in E.
    apply (PyStrFacts.app_inv_head "_") in E.
    now apply PyIntFacts.str_inj.
Qed.

(** Rank 1 of two processes running [sd.py] with the default options: the
    constructor and [setup] return, and the output file name is the [-o]
    name with [_1] appended. *)
Lemma output_name_carries_rank_witness :
  output_fnames_set
    (trace (snd (setup (sample_env true 2 1) sample_solver
                   (default_options "sd") false (Some make_particles)
                   {| app := constructed (sample_env true 2 1);
                      trace := [] |})))
    = [if num_procs (constructed (sample_env true 2 1)) >? 1
       then output (default_options "sd") ++ "_"
            ++ PyStr.str (rank (constructed (sample_env true 2 1)))
       else output (default_options "sd")] /\
  (forall base r1 r2,
     (base ++ "_" ++ PyStr.str r1 = base ++ "_" ++ PyStr.str r2)%string ->
     r1 = r2).
Proof.
  apply (output_name_carries_rank (sample_env true 2 1) None None
           (constructed (sample_env true 2 1)) sample_solver
           (default_options "sd") false (Some make_particles)).
  - vm_compute. reflexivity.
  - vm_compute. reflexivity.
Defined.

Example output_name_of_rank_one :
  output_fnames_set
    (trace (snd (setup (sample_env true 2 1) sample_solver
                   (default_options "sd") false (Some make_particles)
                   {| app := constructed (sample_env true 2 1);
                      trace := [] |})))
  = ["sd_1"].
Proof. vm_compute. reflexivity. Qed.

Example output_name_of_single_process :
  output_fnames_set
    (trace (snd (setup (sample_env false 1 0) sample_solver
                   (default_options "sd") false (Some make_particles)
                   {| app := constructed (sample_env false 1 0);
                      trace := [] |})))
  = ["sd"].
Proof. vm_compute. reflexivity. Qed.

(* ================================================================== *)
(** * [setup]: the solver interfaces                                   *)
(* ================================================================== *)

Lemma attached_interfaces_app (l1 l2 : list Event) :
  attached_interfaces (l1 ++ l2)
  = (attached_interfaces l1 ++ attached_interfaces l2)%list.
Proof.
  induction l1 as [|ev l1 IH]; [reflexivity|].
  destruct ev; cbn; rewrite ?IH; reflexivity.
Qed.

(** The default address. *)
Example default_address_parses :
  parse_multiproc_address "pysph@0.0.0.0:8800+"
  = Ok ("pysph", "0.0.0.0", 8800, true).
Proof. reflexivity. Qed.

(** With the defaults of the "Interfaces" group, rank 0 attaches the
    multiprocessing interface at the default address and nothing else. *)
Lemma default_interfaces_run (o : Options) (w : World) (s : Solver.state) :
  rank (app w) = 0 -> _solver (app w) = Some s ->
  interfaces o = default_interfaces ->
  trace (snd (add_solver_interfaces o w))
  = (trace w ++
     [EvCommandManagerNew; EvSolver set_command_handler;
      EvAddInterface (MultiprocessingInterface "0.0.0.0" 8800 "pysph" true)]
     ++ (if logger (app w)
         then [EvLoggerInfo "started multiprocessing interface"]
         else []))%list.
Proof.
  intros Hr Hs Hi. destruct w as [a tr]. cbn [app trace] in *.
  unfold add_solver_interfaces. run_monad. rewrite Hs. cbn. rewrite Hr. cbn.
  rewrite Hi. cbn [default_interfaces cmd_line xml_rpc multiproc truthy].
  rewrite default_address_parses. cbn.
  destruct (logger a); cbn; rewrite <- !List.app_assoc; reflexivity.
Qed.

(** With [--no-multiproc] alone, rank 0 attaches nothing. *)
Lemma no_multiproc_run (o : Options) (w : World) (s : Solver.state) :
  rank (app w) = 0 -> _solver (app w) = Some s ->
  interfaces o = parse_interface_flags [flag_no_multiproc] ->
  trace (snd (add_solver_interfaces o w))
  = (trace w ++ [EvCommandManagerNew; EvSolver set_command_handler])%list.
Proof.
  intros Hr Hs Hi. destruct w as [a tr]. cbn [app trace] in *.
  unfold add_solver_interfaces. run_monad. rewrite Hs. cbn. rewrite Hr. cbn.
  rewrite Hi. cbn. rewrite <- !List.app_assoc. reflexivity.
Qed.

(** An address to attach the pool at, and a run that returns: the pool is
    attached. *)
Lemma pool_attached_when_addressed (o : Options) (w : World) (addr : string) :
  rank (app w) = 0 ->
  truthy (multiproc (interfaces o)) = Some addr ->
  fst (add_solver_interfaces o w) = Ok tt ->
  forall evs,
    trace (snd (add_solver_interfaces o w)) = (trace w ++ evs)%list ->
    existsb is_pool (attached_interfaces evs) = true.
Proof.
  intros Hr Ht. destruct w as [a tr]. cbn [app trace] in *.
  unfold add_solver_interfaces. run_monad.
  destruct (_solver a) as [s|]; cbn; [|discriminate].
  rewrite Hr. cbn.
  destruct (cmd_line (interfaces o)); cbn;
    (destruct (truthy (xml_rpc (interfaces o))) as [xa|]; cbn;
     [destruct (parse_xml_rpc_address xa) as [[xh xp]|e]; cbn;
      [|discriminate]|]);
    rewrite Ht; cbn;
    (destruct (parse_multiproc_address addr) as [[[[k h] p] t]|e]; cbn;
     [|discriminate]);
    (destruct (logger a); cbn; [|discriminate]);
    intros _ evs T; rewrite <- !List.app_assoc in T;
    apply List.app_inv_head in T; subst evs; cbn;
    rewrite ?orb_true_r; reflexivity.
Qed.

(** If parsing the flags leaves no address, one of them switched the pool
    off. *)
Lemma no_address_means_disabled (flags : list InterfaceFlag) :
  forall io,
    truthy (multiproc (fold_left apply_flag flags io)) = None ->
    truthy (multiproc io) = None \/ existsb disables_pool flags = true.
Proof.
  induction flags as [|f flags IH]; intros io H; cbn in *; [now left|].
  destruct (IH _ H) as [H1|H1]; [|right; now rewrite H1, orb_true_r].
  destruct f as [|xa|[|c ma]|]; cbn in *; auto; discriminate.
Qed.

(** C9.  On rank 0, with the options of the "Interfaces" group as the
    command line left them: when none was given, the multiprocessing
    interface is attached with authkey "pysph", host "0.0.0.0", port 8800
    and port search on, and neither the command-line nor the XML-RPC
    interface is; with [--no-multiproc] nothing is attached; and when
    [setup] gets through this part without the multiprocessing interface
    attached, an option on the command line switched it off. *)
Theorem pool_interface_is_on_by_default (flags : list InterfaceFlag)
    (o : Options) (w : World) (s : Solver.state) :
  rank (app w) = 0 ->
  _solver (app w) = Some s ->
  interfaces o = parse_interface_flags flags ->
  exists evs,
    trace (snd (add_solver_interfaces o w)) = (trace w ++ evs)%list /\
    (flags = [] ->
       attached_interfaces evs
       = [MultiprocessingInterface "0.0.0.0" 8800 "pysph" true]) /\
    (flags = [flag_no_multiproc] -> attached_interfaces evs = []) /\
    (fst (add_solver_interfaces o w) = Ok tt ->
     existsb is_pool (attached_interfaces evs) = false ->
     existsb disables_pool flags = true).
Proof.
  intros Hr Hs Hi.
  destruct (add_solver_interfaces_emits o w) as [evs [T _]].
  exists evs. split; [exact T|]. repeat split.
  - intros ->. rewrite (default_interfaces_run o w s Hr Hs Hi) in T.
    apply List.app_inv_head in T. subst evs.
    now destruct (logger (app w)).
  - intros ->. rewrite (no_multiproc_run o w s Hr Hs Hi) in T.
    apply List.app_inv_head in T. now subst evs.
  - intros Hok Hoff.
    destruct (truthy (multiproc (interfaces o))) as [addr|] eqn:Ht.
    + rewrite (pool_attached_when_addressed o w addr Hr Ht Hok evs T) in Hoff.
      discriminate.
    + rewrite Hi in Ht. unfold parse_interface_flags in Ht.
      destruct (no_address_means_disabled flags _ Ht) as [H|H];
        [discriminate | exact H].
Qed.

(** Rank 0 of a single process, nothing of the "Interfaces" group on the
    command line. *)
Lemma pool_interface_is_on_by_default_witness :
  exists evs,
    trace (snd (add_solver_interfaces (default_options "sd")
                  (sample_world 1 0 (default_options "sd"))))
      = (trace (sample_world 1 0 (default_options "sd")) ++ evs)%list /\
    (@nil InterfaceFlag = [] ->
       attached_interfaces evs
       = [MultiprocessingInterface "0.0.0.0" 8800 "pysph" true]) /\
    (@nil InterfaceFlag = [flag_no_multiproc] -> attached_interfaces evs = []) /\
    (fst (add_solver_interfaces (default_options "sd")
            (sample_world 1 0 (default_options "sd"))) = Ok tt ->
     existsb is_pool (attached_interfaces evs) = false ->
     existsb disables_pool (@nil InterfaceFlag) = true).
Proof.
  exact (pool_interface_is_on_by_default [] (default_options "sd")
           (sample_world 1 0 (default_options "sd")) sample_solver
           eq_refl eq_refl eq_refl).
Defined.

(* ================================================================== *)
(** * Splitting strings: the default file name and list options        *)
(* ================================================================== *)

Module SplitFacts.
Import PyStr PyStrFacts.

(** A string either lacks [c] or has a first [c]. *)
Lemma first_occurrence (c : ascii) (s : string) :
  lacks c s = true \/
  exists a r, s = (a ++ String c r)%string /\ lacks c a = true.
Proof.
  induction s as [|x s IH]; [now left|].
  cbn [lacks]. destruct (Ascii.eqb_spec x c) as [->|Hne].
  - right. exists "", s. now split.
  - destruct IH as [H|[a [r [-> H]]]].
    + left. now rewrite H.
    + right. exists (String x a), r. split; [reflexivity|].
      cbn [lacks]. apply Ascii.eqb_neq in Hne. now rewrite Hne, H.
Qed.

Lemma split_on_lacks (c : ascii) (s : string) :
  lacks c s = true -> split_on c s = [s].
Proof.
  induction s as [|x s IH]; [reflexivity|].
  cbn [lacks split_on]. intro H. apply andb_true_iff in H.
  destruct H as [Hx Hs]. apply negb_true_iff in Hx.
  now rewrite Hx, (IH Hs).
Qed.

Lemma split_on_first (c : ascii) (a r : string) :
  lacks c a = true -> split_on c (a ++ String c r) = a :: split_on c r.
Proof.
  induction a as [|x a IH]; cbn [String.append lacks split_on]; intro H.
  - now rewrite Ascii.eqb_refl.
  - apply andb_true_iff in H. destruct H as [Hx Ha].
    apply negb_true_iff in Hx. now rewrite Hx, (IH Ha).
Qed.

Lemma split_on_nonempty (c : ascii) (s : string) : split_on c s <> [].
Proof.
  destruct s as [|x s]; cbn; [discriminate|].
  destruct (Ascii.eqb x c); [discriminate|].
  destruct (split_on c s); discriminate.
Qed.

(** No piece holds the separator. *)
Lemma split_on_pieces (c : ascii) (s : string) :
  Forall (fun piece => lacks c piece = true) (split_on c s).
Proof.
  induction s as [|x s IH]; cbn [split_on].
  - now constructor.
  - destruct (Ascii.eqb x c) eqn:E; [now constructor|].
    destruct (split_on c s) as [|h t]; inversion IH; subst;
      constructor; cbn [lacks]; rewrite ?E; auto.
Qed.

(** Joining the pieces with the separator gives the string back. *)
Lemma concat_split_on (c : ascii) (s : string) :
  String.concat (String c "") (split_on c s) = s.
Proof.
  induction s as [|x s IH]; [reflexivity|].
  cbn [split_on]. destruct (Ascii.eqb_spec x c) as [->|Hne].
  - pose proof (split_on_nonempty c s) as Hn.
    destruct (split_on c s) as [|h t]; [congruence|].
    cbn [String.concat String.append] in *. now rewrite IH.
  - pose proof (split_on_nonempty c s) as Hn.
    destruct (split_on c s) as [|h t]; [congruence|].
    destruct t; cbn [String.concat String.append] in *; now rewrite IH.
Qed.

(** The number of pieces is the number of separators plus one. *)
Lemma split_on_length (c : ascii) (s : string) :
  List.length (split_on c s) = S (occurrences c s).
Proof.
  induction s as [|x s IH]; [reflexivity|].
  cbn [split_on occurrences]. destruct (Ascii.eqb x c); cbn [List.length].
  - now rewrite IH.
  - destruct (split_on c s); cbn in *; lia.
Qed.

(** [s.split(c)[0]] as the constructor computes it is the first piece. *)
Lemma split_head_first_piece (c : ascii) (s : string) :
  split_head c s = hd "" (split_on c s).
Proof.
  unfold split_head.
  destruct (first_occurrence c s) as [H|[a [r [-> H]]]].
  - rewrite (find_lacks c s H), (split_on_lacks c s H). reflexivity.
  - rewrite (find_first c a r H), (split_on_first c a r H).
    pose proof (len_nonneg a).
    destruct (len a =? -1) eqn:E; [apply Z.eqb_eq in E; lia|].
    apply slice_to_prefix.
Qed.

Lemma getattr_setattr (d : list (string * list string)) (k : string)
    (v : list string) :
  getattr (setattr d k v) k = Some v.
Proof.
  induction d as [|[k' v'] d IH]; cbn.
  - now rewrite String.eqb_refl.
  - destruct (String.eqb k' k) eqn:E; cbn.
    + now rewrite String.eqb_refl.
    + now rewrite E.
Qed.

Lemma getattr_setattr_other (d : list (string * list string)) (k k0 : string)
    (v : list string) :
  k0 <> k -> getattr (setattr d k v) k0 = getattr d k0.
Proof.
  intro Hne. induction d as [|[k' v'] d IH]; cbn.
  - destruct (String.eqb_spec k k0); [congruence | reflexivity].
  - destruct (String.eqb_spec k' k) as [->|Hk]; cbn.
    + destruct (String.eqb_spec k k0); [congruence|].
      destruct (String.eqb_spec k k0); [congruence | reflexivity].
    + destruct (String.eqb k' k0); [reflexivity | exact IH].
Qed.

End SplitFacts.

(** X1.  Without a file name, the constructor names the application after
    [sys.argv[0]] up to its first dot: the name is the first piece of
    [argv[0].split('.')], holds no dot, and [argv[0]] is the name followed
    by nothing or by a dot and the rest; so a script started as [./sd.py]
    gets the empty name. *)
Theorem default_fname_stops_at_first_dot (env : Env) (dom : option Domain)
    (a : Application) :
  init env None dom = Ok a ->
  fname a = hd "" (split_on "." (argv0 env)) /\
  PyStr.lacks "." (fname a) = true /\
  (argv0 env = fname a \/
   exists rest, argv0 env = (fname a ++ String "." rest)%string) /\
  (forall rest, argv0 env = String "." rest -> fname a = "").
Proof.
  intro H.
  assert (Hf : fname a = PyStr.split_head "." (argv0 env)).
  { unfold init in H.
    destruct (Has_MPI env); [destruct (Has_Zoltan env)|];
      cbn in H; try discriminate; inversion H; reflexivity. }
  rewrite Hf. split; [apply SplitFacts.split_head_first_piece|].
  rewrite SplitFacts.split_head_first_piece.
  destruct (SplitFacts.first_occurrence "." (argv0 env))
    as [Hl|[p [r [E Hl]]]].
  - rewrite (SplitFacts.split_on_lacks _ _ Hl). cbn [hd].
    repeat split; [exact Hl | now left |].
    intros rest E. rewrite E in Hl. discriminate.
  - rewrite E, (SplitFacts.split_on_first _ _ _ Hl). cbn [hd].
    repeat split; [exact Hl | right; now exists r |].
    intros rest E'. destruct p as [|x p]; [reflexivity|].
    cbn [String.append] in E'. injection E' as -> _.
    cbn in Hl. discriminate.
Qed.

(** [python ./sd.py]: the name is empty. *)
Lemma default_fname_stops_at_first_dot_witness :
  fname (constructed_at "./sd.py") = hd "" (split_on "." "./sd.py") /\
  PyStr.lacks "." (fname (constructed_at "./sd.py")) = true /\
  ("./sd.py" = fname (constructed_at "./sd.py") \/
   exists rest,
     "./sd.py" = (fname (constructed_at "./sd.py") ++ String "." rest)%string) /\
  (forall rest, "./sd.py" = String "." rest ->
     fname (constructed_at "./sd.py") = "").
Proof.
  exact (default_fname_stops_at_first_dot (env_at "./sd.py") None
           (constructed_at "./sd.py") eq_refl).
Defined.

(** X2.  [list_option_callback] stores under [dest] the comma-separated
    pieces of the option's value followed by every argument still to be
    parsed, leaves those arguments in place and the other attributes alone;
    the pieces hold no comma, are one more than the commas of the value
    (so never none, the empty value giving one empty piece), and joined by
    commas give the value back. *)
Theorem list_option_callback_stores_pieces (dest value : string)
    (parser : Parser) :
  getattr (values (list_option_callback dest value parser)) dest
    = Some (split_on "," value ++ rargs parser)%list /\
  rargs (list_option_callback dest value parser) = rargs parser /\
  (forall k, k <> dest ->
     getattr (values (list_option_callback dest value parser)) k
     = getattr (values parser) k) /\
  Forall (fun piece => PyStr.lacks "," piece = true) (split_on "," value) /\
  List.length (split_on "," value) = S (occurrences "," value) /\
  String.concat "," (split_on "," value) = value.
Proof.
  unfold list_option_callback. cbn [values rargs]. repeat split.
  - apply SplitFacts.getattr_setattr.
  - intros k Hk. now apply SplitFacts.getattr_setattr_other.
  - apply SplitFacts.split_on_pieces.
  - apply SplitFacts.split_on_length.
  - apply SplitFacts.concat_split_on.
Qed.

(* ================================================================== *)
(** * The command line and the log                                     *)
(* ================================================================== *)

Lemma log_levels_domain (k : string) :
  _log_levels k = None <-> is_log_level_name k = false.
Proof.
  unfold _log_levels, is_log_level_name, log_level_names. cbn [existsb].
  destruct (String.eqb k "debug"), (String.eqb k "info"),
    (String.eqb k "warning"), (String.eqb k "error"),
    (String.eqb k "critical"), (String.eqb k "none"); cbn;
    split; congruence.
Qed.

(** X3.  A log level that is not one of the six names (they are matched
    as written, so [WARNING] is none of them) makes
    [_process_command_line] raise [KeyError] on that name: the parsed
    options are already stored, but no output directory is made, the output
    path stays unset and no logging is set up. *)
Theorem unknown_loglevel_raises_key_error (env : Env) (parsed : Options)
    (w : World) :
  is_log_level_name (loglevel parsed) = false ->
  _process_command_line env parsed w
  = (Raise (KeyError (loglevel parsed)),
     {| app := set_options (Some parsed) (app w); trace := trace w |}).
Proof.
  intro H. apply log_levels_domain in H.
  unfold _process_command_line. run_monad. now rewrite H.
Qed.

(** [-v WARNING] *)
Lemma unknown_loglevel_raises_key_error_witness :
  _process_command_line (sample_env false 1 0)
    (with_loglevel "WARNING" (default_options "sd"))
    {| app := constructed (sample_env false 1 0); trace := [] |}
  = (Raise (KeyError "WARNING"),
     {| app := set_options (Some (with_loglevel "WARNING" (default_options "sd")))
                 (constructed (sample_env false 1 0));
        trace := [] |}).
Proof.
  exact (unknown_loglevel_raises_key_error (sample_env false 1 0)
           (with_loglevel "WARNING" (default_options "sd"))
           {| app := constructed (sample_env false 1 0); trace := [] |}
           eq_refl).
Defined.

(** With the level [none] the command line is processed without any
    logging: the directory is made and that is all. *)
Lemma process_command_line_none env parsed w :
  loglevel parsed = "none" ->
  _process_command_line env parsed w
  = (Ok tt,
     {| app := set_path (Some (abspath env (output_dir parsed)))
                 (set_options (Some parsed) (app w));
        trace := (trace w ++ [EvMkdir (abspath env (output_dir parsed))])%list |}).
Proof.
  intro H. unfold _process_command_line. rewrite H.
  change (_log_levels "none") with (Some (@None Z)).
  run_monad. reflexivity.
Qed.

Ltac unfold_bootstrap :=
  unfold _create_particles, create_or_restart, classify_particles,
    partition_particles, create_parallel_managers, attach_managers.

Lemma create_particles_keeps_logger env factory :
  keeps logger (_create_particles env factory).
Proof. unfold_bootstrap. keeps_walk. Qed.

Lemma create_particles_keeps_rank env factory :
  keeps rank (_create_particles env factory).
Proof. unfold_bootstrap. keeps_walk. Qed.

Lemma setup_output_keeps_logger env o : keeps logger (setup_output env o).
Proof. unfold setup_output. keeps_walk. Qed.

Lemma setup_output_keeps_rank env o : keeps rank (setup_output env o).
Proof. unfold setup_output. keeps_walk. Qed.

Lemma setup_particles_keeps_logger_none env solver parsed nnps factory :
  loglevel parsed = "none" ->
  keeps logger (setup_particles env solver parsed nnps factory).
Proof.
  intro H. unfold setup_particles.
  apply keeps_bind; [keeps_walk | intros _].
  apply keeps_bind; [keeps_walk | intros _].
  apply keeps_bind.
  { intro w. now rewrite (process_command_line_none env parsed w H). }
  intros _. apply keeps_bind; [keeps_walk | intro o].
  apply keeps_bind; [apply create_particles_keeps_logger | intros _].
  keeps_walk.
Qed.

Lemma init_logger env fname0 dom a :
  init env fname0 dom = Ok a -> logger a = false.
Proof.
  unfold init. destruct (Has_MPI env); [destruct (Has_Zoltan env)|];
    cbn; try discriminate; now intros [= <-].
Qed.

(** On rank 0, an address to attach the pool at but no logger: this part
    of [setup] raises. *)
Lemma pool_needs_logger (o : Options) (w : World) (addr : string) :
  rank (app w) = 0 -> logger (app w) = false ->
  truthy (multiproc (interfaces o)) = Some addr ->
  exists e, fst (add_solver_interfaces o w) = Raise e.
Proof.
  intros Hr Hl Ht. destruct w as [a tr]. cbn [app trace] in *.
  unfold add_solver_interfaces. run_monad.
  destruct (_solver a) as [s|]; cbn; [|now eexists].
  rewrite Hr. cbn.
  destruct (cmd_line (interfaces o)); cbn;
    (destruct (truthy (xml_rpc (interfaces o))) as [xa|]; cbn;
     [destruct (parse_xml_rpc_address xa) as [[xh xp]|e]; cbn;
      [|now eexists]|]);
    rewrite Ht; cbn;
    (destruct (parse_multiproc_address addr) as [[[[k h] p] t]|e]; cbn;
     [|now eexists]);
    rewrite Hl; cbn; now eexists.
Qed.

(** X4.  With the log level [none] no logger is ever assigned, yet on
    rank 0 [setup] logs the address of the multiprocessing interface: for an
    application as the constructor builds it, rank 0, level [none] and a
    multiprocessing address (the default one included), [setup] never
    returns.  Where the address parses and no XML-RPC address is given,
    what it raises is [AttributeError] on [logger], after the interface has
    been attached. *)
Theorem loglevel_none_breaks_setup_on_rank_zero (env : Env)
    (fname0 : option string) (dom : option Domain) (a : Application)
    (solver : Solver.state) (parsed : Options) (nnps : bool)
    (factory : Factory) (addr : string) :
  init env fname0 dom = Ok a ->
  rank a = 0 ->
  loglevel parsed = "none" ->
  truthy (multiproc (interfaces parsed)) = Some addr ->
  (exists e,
     fst (setup env solver parsed nnps factory {| app := a; trace := [] |})
     = Raise e) /\
  (forall w s k h p t,
     rank (app w) = 0 -> logger (app w) = false ->
     _solver (app w) = Some s ->
     truthy (xml_rpc (interfaces parsed)) = None ->
     parse_multiproc_address addr = Ok (k, h, p, t) ->
     add_solver_interfaces parsed w
     = (Raise (AttributeError "logger"),
        {| app := app w;
           trace := (trace w ++
                     [EvCommandManagerNew; EvSolver set_command_handler] ++
                     (if cmd_line (interfaces parsed)
                      then [EvAddInterface CommandlineInterface] else []) ++
                     [EvAddInterface (MultiprocessingInterface h p k t)])%list
        |})).
Proof.
  intros Hinit Hr Hl Ht. split.
  - unfold setup.
    pose proof (setup_particles_keeps_logger_none env solver parsed nnps
                  factory Hl {| app := a; trace := [] |}) as Kl.
    pose proof (setup_particles_keeps_rank env solver parsed nnps factory
                  {| app := a; trace := [] |}) as Kr.
    destruct (setup_particles env solver parsed nnps factory
                {| app := a; trace := [] |}) as [[o|e] w1] eqn:R1.
    + pose proof (setup_particles_returns _ _ _ _ _ _ _ _ R1) as ->.
      erewrite bind_ok by exact R1.
      pose proof (setup_output_keeps_logger env parsed w1) as Kl2.
      pose proof (setup_output_keeps_rank env parsed w1) as Kr2.
      destruct (setup_output env parsed w1) as [[[]|e] w2] eqn:R2.
      * erewrite bind_ok by exact R2.
        cbn [snd app] in *.
        apply (pool_needs_logger parsed w2 addr).
        -- now rewrite Kr2, Kr.
        -- rewrite Kl2, Kl. exact (init_logger _ _ _ _ Hinit).
        -- exact Ht.
      * erewrite bind_raise by exact R2. now exists e.
    + erewrite bind_raise by exact R1. now exists e.
  - intros w s k h p t Hr' Hl' Hs Hx Hp.
    destruct w as [a' tr]. cbn [app trace] in *.
    unfold add_solver_interfaces. run_monad. rewrite Hs. cbn.
    rewrite Hr'. cbn.
    destruct (cmd_line (interfaces parsed)); cbn; rewrite Hx; cbn;
      rewrite Ht; cbn; rewrite Hp; cbn; rewrite Hl'; cbn;
      rewrite <- !List.app_assoc; reflexivity.
Qed.

(** [sd.py -v none] in a single process. *)
Lemma loglevel_none_breaks_setup_on_rank_zero_witness :
  (exists e,
     fst (setup (sample_env false 1 0) sample_solver
            (with_loglevel "none" (default_options "sd")) false
            (Some make_particles)
            {| app := constructed (sample_env false 1 0); trace := [] |})
     = Raise e) /\
  (forall w s k h p t,
     rank (app w) = 0 -> logger (app w) = false ->
     _solver (app w) = Some s ->
     truthy (xml_rpc (interfaces (with_loglevel "none" (default_options "sd"))))
       = None ->
     parse_multiproc_address "pysph@0.0.0.0:8800+" = Ok (k, h, p, t) ->
     add_solver_interfaces (with_loglevel "none" (default_options "sd")) w
     = (Raise (AttributeError "logger"),
        {| app := app w;
           trace := (trace w ++
                     [EvCommandManagerNew; EvSolver set_command_handler] ++
                     (if cmd_line (interfaces
                                     (with_loglevel "none" (default_options "sd")))
                      then [EvAddInterface CommandlineInterface] else []) ++
                     [EvAddInterface (MultiprocessingInterface h p k t)])%list
        |})).
Proof.
  exact (loglevel_none_breaks_setup_on_rank_zero (sample_env false 1 0)
           None None (constructed (sample_env false 1 0)) sample_solver
           (with_loglevel "none" (default_options "sd")) false
           (Some make_particles) "pysph@0.0.0.0:8800+"
           eq_refl eq_refl eq_refl eq_refl).
Defined.

Example loglevel_none_run :
  fst (setup (sample_env false 1 0) sample_solver
         (with_loglevel "none" (default_options "sd")) false
         (Some make_particles)
         {| app := constructed (sample_env false 1 0); trace := [] |})
  = Raise (AttributeError "logger").
Proof. vm_compute. reflexivity. Qed.

(** X5.  What [_setup_logging] does to the [logging] module does not
    depend on the rank: two processes with the same output path and the same
    process count make the same calls, so in a parallel run every rank
    configures the same log file. *)
Theorem log_setup_ignores_rank (env : Env) (filename : option string)
    (level : Z) (stream : bool) (w1 w2 : World) :
  path (app w1) = path (app w2) ->
  num_procs (app w1) = num_procs (app w2) ->
  exists evs,
    trace (snd (_setup_logging env filename level stream w1))
      = (trace w1 ++ evs)%list /\
    trace (snd (_setup_logging env filename level stream w2))
      = (trace w2 ++ evs)%list /\
    fst (_setup_logging env filename level stream w1)
      = fst (_setup_logging env filename level stream w2).
Proof.
  intros Hp Hn. destruct w1 as [a1 t1], w2 as [a2 t2]. cbn [app trace] in *.
  unfold _setup_logging. fold (chosen_logfile env filename).
  destruct (PyStr.len (chosen_logfile env filename) >? 0); run_monad.
  - rewrite Hp.
    destruct (os_path_join (path a2) (chosen_logfile env filename))
      as [lfn|e]; cbn.
    + rewrite Hn. destruct (num_procs a2 >? 1), stream; cbn;
        rewrite <- ?List.app_assoc; eexists; repeat split.
    + eexists; repeat split.
  - destruct stream; cbn; rewrite <- ?List.app_assoc; eexists; repeat split.
Qed.

(** Ranks 0 and 1 of two processes. *)
Lemma log_setup_ignores_rank_witness :
  exists evs,
    trace (snd (_setup_logging (sample_env true 2 0) None 30 false
                  (sample_world 2 0 (default_options "sd"))))
      = (trace (sample_world 2 0 (default_options "sd")) ++ evs)%list /\
    trace (snd (_setup_logging (sample_env true 2 0) None 30 false
                  (sample_world 2 1 (default_options "sd"))))
      = (trace (sample_world 2 1 (default_options "sd")) ++ evs)%list /\
    fst (_setup_logging (sample_env true 2 0) None 30 false
           (sample_world 2 0 (default_options "sd")))
      = fst (_setup_logging (sample_env true 2 0) None 30 false
               (sample_world 2 1 (default_options "sd"))).
Proof.
  exact (log_setup_ignores_rank (sample_env true 2 0) None 30 false
           (sample_world 2 0 (default_options "sd"))
           (sample_world 2 1 (default_options "sd")) eq_refl eq_refl).
Defined.

(* ================================================================== *)
(** * More on the bootstrap                                            *)
(* ================================================================== *)

Lemma create_or_restart_keeps_options env factory :
  keeps options (create_or_restart env factory).
Proof. unfold create_or_restart. keeps_walk. Qed.

Lemma classified_fields (st dy : list ParticleArray) (w : World) :
  options (app (classified st dy w)) = options (app w) /\
  num_procs (app (classified st dy w)) = num_procs (app w) /\
  particles (app (classified st dy w)) = particles (app w) /\
  particles_static (app (classified st dy w)) = st /\
  particles_dynamic (app (classified st dy w)) = dy /\
  _solver (app (classified st dy w)) = _solver (app w) /\
  comm (app (classified st dy w)) = comm (app w) /\
  trace (classified st dy w) = trace w.
Proof. destruct w as [a tr]. now destruct a. Qed.

(** A parallel run without [--with-zoltan]: [ValueError], and nothing has
    been created. *)
Lemma create_parallel_managers_without_zoltan env w o :
  1 < num_procs (app w) -> options (app w) = Some o ->
  with_zoltan (zoltan o) = false ->
  create_parallel_managers env w
  = (Raise (ValueError "Sorry. You're stuck with Zoltan for now"),
     {| app := set_pm_static None (set_pm None (app w)); trace := trace w |}).
Proof.
  intros Hn Ho Hz. destruct w as [a tr]. cbn [app trace] in *.
  apply Z.gtb_lt in Hn.
  unfold create_parallel_managers. run_monad.
  rewrite Hn. cbn. rewrite Ho. cbn. rewrite Hz. reflexivity.
Qed.

(** X6.  In a parallel run, switching Zoltan off leaves no way to
    partition: once the particles exist the bootstrap raises [ValueError],
    and in no case does it return; no partition manager is constructed, no
    barrier is reached, and the solver is handed no manager. *)
Theorem parallel_run_requires_zoltan (env : Env) (factory : Factory)
    (w : World) (o : Options) :
  1 < num_procs (app w) ->
  options (app w) = Some o ->
  with_zoltan (zoltan o) = false ->
  (exists e, fst (_create_particles env factory w) = Raise e) /\
  (fst (create_or_restart env factory w) = Ok tt ->
   fst (_create_particles env factory w)
   = Raise (ValueError "Sorry. You're stuck with Zoltan for now")) /\
  exists evs,
    trace (snd (_create_particles env factory w)) = (trace w ++ evs)%list /\
    forallb is_bootstrap_event evs = true.
Proof.
  intros Hn Ho Hz.
  destruct (create_or_restart_emits env factory w) as [e1 [T1 F1]].
  pose proof (create_or_restart_keeps_num_procs env factory w) as Kn.
  pose proof (create_or_restart_keeps_options env factory w) as Ko.
  unfold _create_particles.
  destruct (create_or_restart env factory w) as [[[]|e] w1] eqn:R1;
    cbn [fst snd] in *.
  - erewrite bind_ok by exact R1.
    erewrite bind_ok by apply classify_particles_run.
    unfold partition_particles.
    erewrite bind_raise.
    2:{ apply (create_parallel_managers_without_zoltan env _ o).
        - destruct (classified_fields (static_of (particles (app w1)))
                      (dynamic_of (particles (app w1))) w1)
            as (_ & -> & _). lia.
        - destruct (classified_fields (static_of (particles (app w1)))
                      (dynamic_of (particles (app w1))) w1)
            as (-> & _). congruence.
        - exact Hz. }
    cbn [fst snd trace]. repeat split; [now eexists|].
    exists e1. split; [|exact F1].
    destruct (classified_fields (static_of (particles (app w1)))
                (dynamic_of (particles (app w1))) w1)
      as (_ & _ & _ & _ & _ & _ & _ & ->). exact T1.
  - erewrite bind_raise by exact R1. cbn [fst snd].
    repeat split; [now eexists | discriminate |].
    exists e1. now split.
Qed.

(** Two processes, [--with-zoltan] switched off. *)
Lemma parallel_run_requires_zoltan_witness :
  (exists e,
     fst (_create_particles (sample_env true 2 0) (Some make_particles)
            (sample_world 2 0 (with_zoltan_set false (default_options "sd"))))
     = Raise e) /\
  (fst (create_or_restart (sample_env true 2 0) (Some make_particles)
          (sample_world 2 0 (with_zoltan_set false (default_options "sd"))))
     = Ok tt ->
   fst (_create_particles (sample_env true 2 0) (Some make_particles)
          (sample_world 2 0 (with_zoltan_set false (default_options "sd"))))
   = Raise (ValueError "Sorry. You're stuck with Zoltan for now")) /\
  exists evs,
    trace (snd (_create_particles (sample_env true 2 0) (Some make_particles)
                  (sample_world 2 0
                     (with_zoltan_set false (default_options "sd")))))
      = (trace (sample_world 2 0 (with_zoltan_set false (default_options "sd")))
         ++ evs)%list /\
    forallb is_bootstrap_event evs = true.
Proof.
  apply (parallel_run_requires_zoltan (sample_env true 2 0)
           (Some make_particles)
           (sample_world 2 0 (with_zoltan_set false (default_options "sd")))
           (with_zoltan_set false (default_options "sd")));
    reflexivity.
Defined.

Lemma init_parallel_has_zoltan env fname0 dom a :
  init env fname0 dom = Ok a -> 1 < num_procs a ->
  Has_Zoltan env = true /\ Has_MPI env = true.
Proof.
  unfold init. destruct (Has_MPI env); [destruct (Has_Zoltan env)|]; cbn.
  - now intros _ _.
  - discriminate.
  - intros [= <-]. cbn. lia.
Qed.

(** X7.  For an application as the constructor builds it, the check
    behind "Cannot run in parallel!" can never fire: more than one process
    means MPI was there, and with MPI the constructor itself fails unless
    Zoltan is there too, so with more than one process the tested condition
    [not (Has_Zoltan and Has_MPI)] is false.  Whatever the options, creating
    the parallel managers never raises [RuntimeError]. *)
Theorem cannot_run_in_parallel_is_unreachable (env : Env)
    (fname0 : option string) (dom : option Domain) (a : Application)
    (w : World) :
  init env fname0 dom = Ok a ->
  num_procs (app w) = num_procs a ->
  (1 < num_procs a -> negb (Has_Zoltan env && Has_MPI env) = false) /\
  match fst (create_parallel_managers env w) with
  | Raise (RuntimeError _) => False
  | _ => True
  end.
Proof.
  intros Hinit Hn. split.
  { intro En.
    destruct (init_parallel_has_zoltan env fname0 dom a Hinit En) as [-> ->].
    reflexivity. }
  destruct w as [a' tr]. cbn [app trace] in *.
  unfold create_parallel_managers. run_monad.
  destruct (num_procs a' >? 1) eqn:En; cbn; [|exact I].
  apply Z.gtb_lt in En. rewrite Hn in En.
  destruct (init_parallel_has_zoltan env fname0 dom a Hinit En) as [HZ HM].
  destruct (options a') as [o|]; cbn; [|exact I].
  destruct (with_zoltan (zoltan o)); cbn; [|exact I].
  rewrite HZ, HM. cbn.
  destruct (_solver a') as [s|]; cbn; [|exact I].
  destruct (Z.of_nat (List.length (particles_static a')) >? 0); cbn;
    destruct (comm a'); exact I.
Qed.

(** Rank 0 of two processes, in the state [setup] reaches before the
    bootstrap: solver bound, default options parsed.  The check is reached
    and passed, and the managers are created. *)
Lemma cannot_run_in_parallel_is_unreachable_witness :
  app (snd ((assign (set__solver (Some sample_solver)) ;;
             solver_call get_options ;;
             _process_command_line (sample_env true 2 0) (default_options "sd"))
            {| app := constructed (sample_env true 2 0); trace := [] |}))
    = sample_app 2 0 (default_options "sd") /\
  fst (create_parallel_managers (sample_env true 2 0)
         (sample_world 2 0 (default_options "sd"))) = Ok tt /\
  (1 < num_procs (constructed (sample_env true 2 0)) ->
   negb (Has_Zoltan (sample_env true 2 0) && Has_MPI (sample_env true 2 0))
   = false) /\
  match fst (create_parallel_managers (sample_env true 2 0)
               (sample_world 2 0 (default_options "sd"))) with
  | Raise (RuntimeError _) => False
  | _ => True
  end.
Proof.
  split; [vm_compute; reflexivity|].
  split; [vm_compute; reflexivity|].
  exact (cannot_run_in_parallel_is_unreachable (sample_env true 2 0) None None
           (constructed (sample_env true 2 0))
           (sample_world 2 0 (default_options "sd"))
           eq_refl eq_refl).
Defined.

(** A parallel run whose manager creation returns had everything it
    needs: Zoltan asked for and present, a solver, a communicator. *)
Lemma parallel_managers_success_inv env w o :
  (num_procs (app w) >? 1) = true ->
  options (app w) = Some o ->
  fst (create_parallel_managers env w) = Ok tt ->
  with_zoltan (zoltan o) = true /\
  Has_Zoltan env && Has_MPI env = true /\
  (exists s, _solver (app w) = Some s) /\
  (exists c, comm (app w) = Some c).
Proof.
  intros Hn Ho. destruct w as [a tr]. cbn [app trace] in *.
  destruct (with_zoltan (zoltan o)) eqn:Hz,
    (Has_Zoltan env && Has_MPI env) eqn:HZM,
    (_solver a) as [s|] eqn:Hs, (comm a) as [c|] eqn:Hc;
    try (intros _; repeat split; eauto; fail);
    destruct (particles_static a) as [|pa st] eqn:Est;
    try (assert (Hlen : (Z.of_nat (List.length (pa :: st)) >? 0) = true)
           by (apply Z.gtb_lt; cbn [List.length]; lia));
    assert (Hnil : (Z.of_nat (List.length (@nil ParticleArray)) >? 0) = false)
      by reflexivity;
    unfold create_parallel_managers; run_monad;
    repeat (first [rewrite Hn | rewrite Ho | rewrite Hz | rewrite HZM
                  | rewrite Hs | rewrite Est | rewrite Hlen | rewrite Hc
                  | rewrite Hnil];
            cbn -[Z.of_nat List.length]);
    discriminate.
Qed.

(** The successful run with static particle arrays. *)
Lemma parallel_managers_run_static env w o s c pa st :
  (num_procs (app w) >? 1) = true ->
  options (app w) = Some o ->
  with_zoltan (zoltan o) = true ->
  Has_Zoltan env && Has_MPI env = true ->
  _solver (app w) = Some s ->
  comm (app w) = Some c ->
  particles_static (app w) = pa :: st ->
  exists a',
    create_parallel_managers env w
    = (Ok tt,
       {| app := a';
          trace := (trace w ++
            [EvZoltanNew PMDynamic;
             EvZoltanSetParam PMDynamic "DEBUG_LEVEL"
               (zoltan_debug_level (zoltan o));
             EvZoltanSetParam PMDynamic "DEBUG_MEMORY" "0";
             EvZoltanUpdate PMDynamic;
             EvZoltanNew PMStatic;
             EvZoltanSetParam PMStatic "DEBUG_LEVEL"
               (zoltan_debug_level (zoltan o));
             EvZoltanSetParam PMStatic "DEBUG_MEMORY" "0";
             EvZoltanUpdate PMStatic;
             EvBarrier])%list |}) /\
    (exists m, pm a' = Some m /\ initial_update m = false) /\
    (exists m, pm_static a' = Some m).
Proof.
  intros Hn Ho Hz HZM Hs Hc Est.
  destruct w as [a tr]. cbn [app trace] in *.
  unfold create_parallel_managers. run_monad.
  assert (Hlen : (Z.of_nat (List.length (pa :: st)) >? 0) = true)
    by (apply Z.gtb_lt; cbn [List.length]; lia).
  repeat (first [rewrite Hn | rewrite Ho | rewrite Hz | rewrite HZM
                | rewrite Hs | rewrite Est | rewrite Hlen | rewrite Hc];
          cbn -[Z.of_nat List.length]).
  rewrite <- !List.app_assoc. cbn [List.app].
  eexists. split; [reflexivity|]. cbn.
  split; eexists; [split|]; reflexivity.
Qed.

(** The successful run without static particle arrays. *)
Lemma parallel_managers_run_dynamic env w o s c :
  (num_procs (app w) >? 1) = true ->
  options (app w) = Some o ->
  with_zoltan (zoltan o) = true ->
  Has_Zoltan env && Has_MPI env = true ->
  _solver (app w) = Some s ->
  comm (app w) = Some c ->
  particles_static (app w) = [] ->
  exists a',
    create_parallel_managers env w
    = (Ok tt,
       {| app := a';
          trace := (trace w ++
            [EvZoltanNew PMDynamic;
             EvZoltanSetParam PMDynamic "DEBUG_LEVEL"
               (zoltan_debug_level (zoltan o));
             EvZoltanSetParam PMDynamic "DEBUG_MEMORY" "0";
             EvZoltanUpdate PMDynamic;
             EvBarrier])%list |}) /\
    (exists m, pm a' = Some m /\ initial_update m = false) /\
    pm_static a' = None.
Proof.
  intros Hn Ho Hz HZM Hs Hc Est.
  destruct w as [a tr]. cbn [app trace] in *.
  unfold create_parallel_managers. run_monad.
  assert (Hnil : (Z.of_nat (List.length (@nil ParticleArray)) >? 0) = false)
    by reflexivity.
  repeat (first [rewrite Hn | rewrite Ho | rewrite Hz | rewrite HZM
                | rewrite Hs | rewrite Est | rewrite Hc | rewrite Hnil];
          cbn -[Z.of_nat List.length]).
  rewrite <- !List.app_assoc. cbn [List.app].
  eexists. split; [reflexivity|]. cbn.
  split; [eexists; split|]; reflexivity.
Qed.

(** X8.  When the creation of the parallel managers returns in a
    parallel run, the calls into the partitioning service are, in this
    order: the dynamic manager is constructed, given its two debug
    parameters and updated; if there are static particle arrays, the same for
    the static manager; and last, once, the barrier.  The dynamic manager
    exists afterwards with its initial-update flag cleared, and the static
    manager exists exactly when there are static particle arrays. *)
Theorem parallel_managers_balance_then_barrier (env : Env) (w : World)
    (o : Options) :
  1 < num_procs (app w) ->
  options (app w) = Some o ->
  fst (create_parallel_managers env w) = Ok tt ->
  trace (snd (create_parallel_managers env w))
  = (trace w ++
     [EvZoltanNew PMDynamic;
      EvZoltanSetParam PMDynamic "DEBUG_LEVEL" (zoltan_debug_level (zoltan o));
      EvZoltanSetParam PMDynamic "DEBUG_MEMORY" "0";
      EvZoltanUpdate PMDynamic] ++
     (match particles_static (app w) with
      | [] => []
      | _ :: _ =>
          [EvZoltanNew PMStatic;
           EvZoltanSetParam PMStatic "DEBUG_LEVEL"
             (zoltan_debug_level (zoltan o));
           EvZoltanSetParam PMStatic "DEBUG_MEMORY" "0";
           EvZoltanUpdate PMStatic]
      end) ++
     [EvBarrier])%list /\
  (exists m, pm (app (snd (create_parallel_managers env w))) = Some m /\
             initial_update m = false) /\
  (pm_static (app (snd (create_parallel_managers env w))) = None <->
   particles_static (app w) = []).
Proof.
  intros Hn Ho Hok. apply Z.gtb_lt in Hn.
  destruct (parallel_managers_success_inv env w o Hn Ho Hok)
    as (Hz & HZM & [s Hs] & [c Hc]).
  destruct (particles_static (app w)) as [|pa st] eqn:Est.
  - destruct (parallel_managers_run_dynamic env w o s c Hn Ho Hz HZM Hs Hc Est)
      as (a' & -> & Hpm & Hst).
    cbn [snd app trace]. repeat split; auto.
  - destruct (parallel_managers_run_static env w o s c pa st
                Hn Ho Hz HZM Hs Hc Est) as (a' & -> & Hpm & [m Hst]).
    cbn [snd app trace]. repeat split; auto; rewrite Hst; discriminate.
Qed.

(** Rank 0 of two processes with the fluid and the solid classified. *)
Lemma parallel_managers_balance_then_barrier_witness :
  trace (snd (create_parallel_managers (sample_env true 2 0)
                (classified [solid] [fluid]
                   (sample_world 2 0 (default_options "sd")))))
  = (trace (classified [solid] [fluid]
              (sample_world 2 0 (default_options "sd"))) ++
     [EvZoltanNew PMDynamic;
      EvZoltanSetParam PMDynamic "DEBUG_LEVEL"
        (zoltan_debug_level (zoltan (default_options "sd")));
      EvZoltanSetParam PMDynamic "DEBUG_MEMORY" "0";
      EvZoltanUpdate PMDynamic] ++
     (match particles_static
              (app (classified [solid] [fluid]
                      (sample_world 2 0 (default_options "sd")))) with
      | [] => []
      | _ :: _ =>
          [EvZoltanNew PMStatic;
           EvZoltanSetParam PMStatic "DEBUG_LEVEL"
             (zoltan_debug_level (zoltan (default_options "sd")));
           EvZoltanSetParam PMStatic "DEBUG_MEMORY" "0";
           EvZoltanUpdate PMStatic]
      end) ++
     [EvBarrier])%list /\
  (exists m,
     pm (app (snd (create_parallel_managers (sample_env true 2 0)
                     (classified [solid] [fluid]
                        (sample_world 2 0 (default_options "sd"))))))
       = Some m /\
     initial_update m = false) /\
  (pm_static (app (snd (create_parallel_managers (sample_env true 2 0)
                          (classified [solid] [fluid]
                             (sample_world 2 0 (default_options "sd"))))))
     = None <->
   particles_static
     (app (classified [solid] [fluid]
             (sample_world 2 0 (default_options "sd")))) = []).
Proof.
  apply (parallel_managers_balance_then_barrier (sample_env true 2 0)
           (classified [solid] [fluid]
              (sample_world 2 0 (default_options "sd")))
           (default_options "sd")); reflexivity.
Defined.

Lemma managers_passed_none (l : list Event) :
  forallb passes_no_manager l = true -> managers_passed l = [].
Proof.
  induction l as [|ev l IH]; [reflexivity|].
  cbn [forallb]. intro H. apply andb_true_iff in H. destruct H as [H1 H2].
  destruct ev as [| | | | | | | | | | |c| | | |]; cbn; auto.
  destruct c; cbn in *; auto; discriminate.
Qed.

Lemma create_parallel_managers_keeps_static env :
  keeps particles_static (create_parallel_managers env).
Proof. unfold create_parallel_managers. keeps_walk. Qed.

Lemma create_parallel_managers_keeps_dynamic env :
  keeps particles_dynamic (create_parallel_managers env).
Proof. unfold create_parallel_managers. keeps_walk. Qed.

(** When [attach_managers] returns, it has handed the solver the two
    manager attributes and returns the particle list; nothing of [self]
    changes. *)
Lemma attach_managers_run (w w' : World) (ps : list ParticleArray) :
  attach_managers w = (Ok ps, w') ->
  ps = particles (app w) /\ app w' = app w /\
  trace w' = (trace w ++
              [EvSolver (set_parallel_manager (pm (app w)));
               EvSolver (set_parallel_manager_static (pm_static (app w)))])%list.
Proof.
  destruct w as [a tr]. cbn [app trace].
  destruct (_solver a) as [s|] eqn:Hs;
    unfold attach_managers; run_monad; rewrite Hs; cbn; rewrite ?Hs; cbn;
    [|discriminate].
  intros [= <- <-]. cbn. rewrite <- List.app_assoc. now repeat split.
Qed.

(** When the part after the classification returns. *)
Lemma partition_particles_run env (w w' : World) (ps : list ParticleArray) :
  partition_particles env w = (Ok ps, w') ->
  ps = particles (app w) /\
  particles (app w') = particles (app w) /\
  particles_static (app w') = particles_static (app w) /\
  particles_dynamic (app w') = particles_dynamic (app w) /\
  exists evs,
    trace w' = (trace w ++ evs ++
                [EvSolver (set_parallel_manager (pm (app w')));
                 EvSolver (set_parallel_manager_static (pm_static (app w')))])%list /\
    forallb is_partition_event evs = true.
Proof.
  unfold partition_particles. intro H.
  pose proof (create_parallel_managers_keeps_particles env w) as Kp.
  pose proof (create_parallel_managers_keeps_static env w) as Ks.
  pose proof (create_parallel_managers_keeps_dynamic env w) as Kd.
  destruct (create_parallel_managers_emits env w) as [evs [T F]].
  apply bind_ok_inv in H. destruct H as ([] & w1 & R & H).
  rewrite R in Kp, Ks, Kd, T. cbn [snd] in Kp, Ks, Kd, T.
  apply attach_managers_run in H. destruct H as (-> & Ha & Ht).
  rewrite Ha. repeat split; auto.
  exists evs. split; [|exact F].
  now rewrite Ht, T, <- List.app_assoc.
Qed.

(** X9.  When the bootstrap returns, what it returns is
    [self.particles]; [self.particles_static] and [self.particles_dynamic]
    are its static and its dynamic arrays, in its order; and the last two
    things done were to hand the solver [self.pm] and then [self.pm_static],
    as they are then, and nothing was handed to it before. *)
Theorem bootstrap_hands_over_what_it_holds (env : Env) (factory : Factory)
    (w : World) (ps : list ParticleArray) :
  fst (_create_particles env factory w) = Ok ps ->
  particles (app (snd (_create_particles env factory w))) = ps /\
  particles_static (app (snd (_create_particles env factory w)))
    = static_of ps /\
  particles_dynamic (app (snd (_create_particles env factory w)))
    = dynamic_of ps /\
  exists evs,
    trace (snd (_create_particles env factory w))
    = (trace w ++ evs ++
       [EvSolver (set_parallel_manager
                    (pm (app (snd (_create_particles env factory w)))));
        EvSolver (set_parallel_manager_static
                    (pm_static (app (snd (_create_particles env factory w)))))])%list /\
    managers_passed evs = [].
Proof.
  unfold _create_particles. intro H.
  destruct (create_or_restart_emits env factory w) as [e1 [T1 F1]].
  destruct (create_or_restart env factory w) as [[[]|e] w1] eqn:R1;
    [|erewrite bind_raise in H by exact R1; discriminate].
  cbn [snd] in T1.
  erewrite bind_ok in * by exact R1.
  erewrite bind_ok in * by apply classify_particles_run.
  destruct (partition_particles env _) as [[ps'|e] w2] eqn:R2;
    [|discriminate].
  cbn [fst snd] in *. injection H as ->.
  apply partition_particles_run in R2.
  destruct (classified_fields (static_of (particles (app w1)))
              (dynamic_of (particles (app w1))) w1)
    as (_ & _ & Ep & Es & Ed & _ & _ & Et).
  destruct R2 as (-> & Hp & Hs & Hd & evs & Ht & F).
  rewrite Hp, Hs, Hd, Ep, Es, Ed. repeat split.
  exists (e1 ++ evs)%list. split.
  - now rewrite Ht, Et, T1, <- !List.app_assoc.
  - rewrite managers_passed_app, (managers_passed_bootstrap _ F1).
    apply managers_passed_none.
    apply (forallb_weaken is_partition_event); [now intros []|exact F].
Qed.

(** Rank 0 of two processes with the fluid and the solid. *)
Lemma bootstrap_hands_over_what_it_holds_witness :
  particles (app (snd (_create_particles (sample_env true 2 0)
                         (Some make_particles)
                         (sample_world 2 0 (default_options "sd")))))
    = [fluid; solid] /\
  particles_static (app (snd (_create_particles (sample_env true 2 0)
                                (Some make_particles)
                                (sample_world 2 0 (default_options "sd")))))
    = static_of [fluid; solid] /\
  particles_dynamic (app (snd (_create_particles (sample_env true 2 0)
                                 (Some make_particles)
                                 (sample_world 2 0 (default_options "sd")))))
    = dynamic_of [fluid; solid] /\
  exists evs,
    trace (snd (_create_particles (sample_env true 2 0) (Some make_particles)
                  (sample_world 2 0 (default_options "sd"))))
    = (trace (sample_world 2 0 (default_options "sd")) ++ evs ++
       [EvSolver (set_parallel_manager
                    (pm (app (snd (_create_particles (sample_env true 2 0)
                                     (Some make_particles)
                                     (sample_world 2 0
                                        (default_options "sd")))))));
        EvSolver (set_parallel_manager_static
                    (pm_static
                       (app (snd (_create_particles (sample_env true 2 0)
                                    (Some make_particles)
                                    (sample_world 2 0
                                       (default_options "sd")))))))])%list /\
    managers_passed evs = [].
Proof.
  apply (bootstrap_hands_over_what_it_holds (sample_env true 2 0)
           (Some make_particles) (sample_world 2 0 (default_options "sd"))
           [fluid; solid]).
  vm_compute. reflexivity.
Defined.

(** X10.  In a run of one process without a restart, when the bootstrap
    returns, what it returns is the list the factory returned, in its order,
    and [self.particles] is that list.  Nothing stands between the factory
    and the caller there: no manager is constructed and no [update()] runs;
    the only calls made are the factory call and the hand-over of [None] for
    both managers. *)
Theorem bootstrap_returns_factory_arrays (env : Env)
    (f : bool -> outcome (list ParticleArray)) (w : World) (o : Options)
    (ps : list ParticleArray) :
  options (app w) = Some o ->
  (rank (app w) = 0 -> restart_file (restart o) = None) ->
  num_procs (app w) <= 1 ->
  fst (_create_particles env (Some f) w) = Ok ps ->
  f (negb (rank (app w) =? 0)) = Ok ps /\
  particles (app (snd (_create_particles env (Some f) w))) = ps /\
  trace (snd (_create_particles env (Some f) w))
  = (trace w ++ [EvFactory (negb (rank (app w) =? 0));
                 EvSolver (set_parallel_manager None);
                 EvSolver (set_parallel_manager_static None)])%list.
Proof.
  intros Ho Hre Hn H.
  assert (R1 : create_or_restart env (Some f) w =
               match f (negb (rank (app w) =? 0)) with
               | Ok ps0 =>
                   (Ok tt, {| app := set_particles ps0 (app w);
                              trace := (trace w ++
                                [EvFactory (negb (rank (app w) =? 0))])%list |})
               | Raise e =>
                   (Raise e, {| app := app w;
                                trace := (trace w ++
                                  [EvFactory (negb (rank (app w) =? 0))])%list |})
               end).
  { destruct (rank (app w) =? 0) eqn:E; cbn [negb].
    - apply Z.eqb_eq in E.
      exact (create_or_restart_factory env f w o E Ho (Hre E)).
    - apply Z.eqb_neq in E.
      exact (create_or_restart_worker env f w o E Ho). }
  assert (Hgt : (num_procs (app w) >? 1) = false)
    by (rewrite Z.gtb_ltb; apply Z.ltb_ge; exact Hn).
  unfold _create_particles, partition_particles in *.
  destruct (f (negb (rank (app w) =? 0))) as [ps0|e];
    [|erewrite bind_raise in H by exact R1; discriminate].
  erewrite bind_ok in H by exact R1. erewrite bind_ok by exact R1.
  erewrite bind_ok in H by apply classify_particles_run.
  erewrite bind_ok by apply classify_particles_run.
  assert (Hgt2 : (num_procs (app (classified
                    (static_of (particles (app
                       {| app := set_particles ps0 (app w);
                          trace := (trace w ++
                            [EvFactory (negb (rank (app w) =? 0))])%list |})))
                    (dynamic_of (particles (app
                       {| app := set_particles ps0 (app w);
                          trace := (trace w ++
                            [EvFactory (negb (rank (app w) =? 0))])%list |})))
                    {| app := set_particles ps0 (app w);
                       trace := (trace w ++
                         [EvFactory (negb (rank (app w) =? 0))])%list |})) >? 1)
                 = false)
    by (revert Hgt; now destruct (app w)).
  erewrite bind_ok in H by (apply create_parallel_managers_serial; exact Hgt2).
  erewrite bind_ok by (apply create_parallel_managers_serial; exact Hgt2).
  destruct (attach_managers _) as [[ps'|e] w3] eqn:R3; [|discriminate].
  cbn [fst snd] in *. injection H as ->.
  apply attach_managers_run in R3. cbn [app trace classified] in R3.
  destruct R3 as (E1 & E2 & E3).
  rewrite E2, E3.
  assert (E4 : ps = ps0) by (rewrite E1; now destruct (app w)).
  subst ps0.
  split; [reflexivity|]. split; [now destruct (app w)|].
  rewrite <- List.app_assoc. now destruct (app w).
Qed.

(** [sd.py] in a single process: the fluid and the solid. *)
Lemma bootstrap_returns_factory_arrays_witness :
  make_particles
    (negb (rank (app (sample_world 1 0 (default_options "sd"))) =? 0))
  = Ok [fluid; solid] /\
  particles (app (snd (_create_particles (sample_env false 1 0)
                         (Some make_particles)
                         (sample_world 1 0 (default_options "sd")))))
  = [fluid; solid] /\
  trace (snd (_create_particles (sample_env false 1 0) (Some make_particles)
                (sample_world 1 0 (default_options "sd"))))
  = (trace (sample_world 1 0 (default_options "sd")) ++
     [EvFactory
        (negb (rank (app (sample_world 1 0 (default_options "sd"))) =? 0));
      EvSolver (set_parallel_manager None);
      EvSolver (set_parallel_manager_static None)])%list.
Proof.
  apply (bootstrap_returns_factory_arrays (sample_env false 1 0)
           make_particles (sample_world 1 0 (default_options "sd"))
           (default_options "sd")).
  - reflexivity.
  - reflexivity.
  - cbn. lia.
  - vm_compute. reflexivity.
Defined.

(** ** Restart *)





(** X12.  A restart file that cannot be loaded ends the bootstrap with
    the loader's exception and nothing done: no particles are set, the solver
    keeps its time, time step and count, and the factory is not called in its
    place. *)
Theorem restart_load_failure_propagates (env : Env) (factory : Factory)
    (w : World) (o : Options) (f : string) (e : exn) :
  rank (app w) = 0 ->
  options (app w) = Some o ->
  restart_file (restart o) = Some f ->
  load env f = Raise e ->
  _create_particles env factory w
  = (Raise e, {| app := app w; trace := (trace w ++ [EvLoad f])%list |}).
Proof.
  intros Hr Ho Hf Hl. unfold _create_particles.
  erewrite bind_raise; [reflexivity|].
  destruct w as [a tr]. cbn [app trace] in *.
  unfold create_or_restart. run_monad.
  rewrite Ho. cbn. rewrite Hr. cbn. rewrite Hf. cbn. rewrite Hl.
  reflexivity.
Qed.

(** A restart file that is not there. *)
Lemma restart_load_failure_propagates_witness :
  _create_particles (sample_env false 1 0) (Some make_particles)
    (sample_world 1 0 (restart_options missing_checkpoint PyFloat.one))
  = (Raise (Foreign "IOError"),
     {| app := app (sample_world 1 0
                      (restart_options missing_checkpoint PyFloat.one));
        trace := (trace (sample_world 1 0
                           (restart_options missing_checkpoint PyFloat.one))
                  ++ [EvLoad missing_checkpoint])%list |}).
Proof.
  exact (restart_load_failure_propagates (sample_env false 1 0)
           (Some make_particles)
           (sample_world 1 0 (restart_options missing_checkpoint PyFloat.one))
           (restart_options missing_checkpoint PyFloat.one)
           missing_checkpoint (Foreign "IOError")
           eq_refl eq_refl eq_refl eq_refl).
Defined.

(* ================================================================== *)
(** * More on the solver interfaces and the output settings            *)
(* ================================================================== *)

(** X13.  Only rank 0 attaches interfaces: on any other rank this part
    of [setup] creates the command manager, registers the command handler
    and returns; it attaches nothing and does not even look at the
    addresses, so an address that would stop rank 0 does not stop the
    others. *)
Theorem other_ranks_attach_no_interface (o : Options) (w : World)
    (s : Solver.state) :
  (rank (app w) =? 0) = false ->
  _solver (app w) = Some s ->
  add_solver_interfaces o w
  = (Ok tt,
     {| app := app w;
        trace := (trace w ++
                  [EvCommandManagerNew; EvSolver set_command_handler])%list |}).
Proof.
  intros Hr Hs. destruct w as [a tr]. cbn [app trace] in *.
  unfold add_solver_interfaces. run_monad. rewrite Hs. cbn. rewrite Hr. cbn.
  now rewrite <- List.app_assoc.
Qed.

(** Rank 1 with a multiprocessing address that is no address. *)
Lemma other_ranks_attach_no_interface_witness :
  add_solver_interfaces (garbled_options "no address")
    (sample_world 2 1 (garbled_options "no address"))
  = (Ok tt,
     {| app := app (sample_world 2 1 (garbled_options "no address"));
        trace := (trace (sample_world 2 1 (garbled_options "no address")) ++
                  [EvCommandManagerNew; EvSolver set_command_handler])%list |}).
Proof.
  exact (other_ranks_attach_no_interface (garbled_options "no address")
           (sample_world 2 1 (garbled_options "no address")) sample_solver
           eq_refl eq_refl).
Defined.

Example garbled_address_stops_rank_zero :
  fst (add_solver_interfaces (garbled_options "no address")
         (sample_world 2 0 (garbled_options "no address")))
  = Raise (ValueError "invalid literal for int()").
Proof. vm_compute. reflexivity. Qed.

Module MoreAddressFacts.
Import PyStr PyStrFacts PyIntFacts.

Lemma digits_lack_space (s : string) :
  all_digits s = true -> lacks_space s = true.
Proof.
  induction s as [|a s IH]; cbn; [reflexivity|].
  destruct (digit_of a) as [k|] eqn:E; [|discriminate].
  intro H. now rewrite (digit_not_space a k E), IH.
Qed.

Lemma lacks_space_app (a b : string) :
  lacks_space (a ++ b) = lacks_space a && lacks_space b.
Proof.
  induction a as [|x a IH]; cbn; [reflexivity|].
  now rewrite IH, andb_assoc.
Qed.

Lemma rstrip_lacks_space (s : string) : lacks_space s = true -> rstrip s = s.
Proof.
  induction s as [|a s IH]; cbn; [reflexivity|].
  intro H. apply andb_true_iff in H. destruct H as [Ha Hs].
  apply negb_true_iff in Ha. rewrite (IH Hs), Ha. now destruct s.
Qed.

Lemma lstrip_lacks_space (s : string) : lacks_space s = true -> lstrip s = s.
Proof.
  destruct s as [|a s]; cbn; [reflexivity|].
  intro H. apply andb_true_iff in H. destruct H as [Ha _].
  apply negb_true_iff in Ha. now rewrite Ha.
Qed.

Lemma digits_acc_plus (s : string) : forall acc,
  digits_acc acc (s ++ "+") = None.
Proof.
  induction s as [|a s IH]; intro acc; cbn [String.append digits_acc].
  - reflexivity.
  - destruct (digit_of a); [apply IH | reflexivity].
Qed.

(** A numeral with a [+] behind it is no integer. *)
Lemma int_trailing_plus (p : string) (v : Z) :
  decimal p = Some v -> int (p ++ "+") = None.
Proof.
  intro Hd. pose proof (decimal_all_digits p v Hd) as Hall.
  pose proof (decimal_nonempty p v Hd) as Hne.
  assert (Hsp : lacks_space (p ++ "+") = true).
  { rewrite lacks_space_app, (digits_lack_space p Hall). reflexivity. }
  unfold int, strip.
  rewrite (lstrip_lacks_space _ Hsp), (rstrip_lacks_space _ Hsp).
  destruct p as [|a s]; [congruence|].
  cbn [String.append]. cbn in Hall.
  destruct (digit_of a) as [k|] eqn:Ha; [|discriminate].
  assert (Hdig : digits (String a (s ++ "+")) = None).
  { unfold digits. cbn [digits_acc]. rewrite Ha. apply digits_acc_plus. }
  rewrite <- Hdig.
  destruct a as [[|] [|] [|] [|] [|] [|] [|] [|]];
    cbn in Ha; try discriminate; reflexivity.
Qed.

End MoreAddressFacts.

(** X14.  An XML-RPC address [[HOST:]PORT] whose host holds no [:] and
    whose port is a decimal numeral parses to the host ("0.0.0.0" when
    absent) and the integer the numeral denotes.  Unlike the
    multiprocessing address it knows no port search: with a [+] behind the
    port it is refused with [ValueError]. *)
Theorem xml_rpc_address_parses (host : option string) (port : string)
    (v : Z) :
  lacks_opt ":" host = true ->
  PyStr.decimal port = Some v ->
  parse_xml_rpc_address (address None host port false)
    = Ok (or_default "0.0.0.0" host, v) /\
  parse_xml_rpc_address (address None host port true)
    = Raise (ValueError "invalid literal for int()").
Proof.
  intros Hh Hd.
  pose proof (PyIntFacts.decimal_all_digits port v Hd) as Hall.
  assert (Tcolon : forall b, PyStr.lacks ":" (port_text port b) = true).
  { intro b. apply AddressFacts.port_text_lacks;
      [now apply AddressFacts.digits_lack_colon | reflexivity]. }
  split; unfold parse_xml_rpc_address, address; cbn [String.append].
  - fold (port_text port false).
    destruct (AddressFacts.cut_at_first ":" host (port_text port false) "0.0.0.0")
      as [E3 E4]; [exact Hh | intros _; apply Tcolon | rewrite E3, E4].
    unfold port_text. rewrite PyStrFacts.app_nil_r.
    now rewrite (PyIntFacts.int_decimal port v Hd).
  - fold (port_text port true).
    destruct (AddressFacts.cut_at_first ":" host (port_text port true) "0.0.0.0")
      as [E3 E4]; [exact Hh | intros _; apply Tcolon | rewrite E4].
    unfold port_text.
    now rewrite (MoreAddressFacts.int_trailing_plus port v Hd).
Qed.

(** [--xml-rpc localhost:8900] and [--xml-rpc localhost:8900+] *)
Lemma xml_rpc_address_parses_witness :
  parse_xml_rpc_address "localhost:8900" = Ok ("localhost", 8900) /\
  parse_xml_rpc_address "localhost:8900+"
    = Raise (ValueError "invalid literal for int()").
Proof.
  exact (xml_rpc_address_parses (Some "localhost") "8900" 8900
           eq_refl eq_refl).
Defined.

(** X15.  A multiprocessing address without a port is refused in one of
    two ways: with nothing where the port should be (as in [authkey@] or
    [host:]) the parser raises [IndexError], looking for the last character
    of the empty port; with only a [+] there it raises [ValueError], the
    port left being empty. *)
Theorem multiproc_address_without_port (authkey host : option string) :
  lacks_opt "@" authkey = true ->
  lacks_opt "@" host = true ->
  lacks_opt ":" host = true ->
  parse_multiproc_address (address authkey host "" false) = Raise IndexError /\
  parse_multiproc_address (address authkey host "" true)
    = Raise (ValueError "invalid literal for int()").
Proof.
  intros Hk Hh1 Hh2.
  assert (Tat : forall b, PyStr.lacks "@" (port_text "" b) = true)
    by (now intros []).
  assert (Tcolon : forall b, PyStr.lacks ":" (port_text "" b) = true)
    by (now intros []).
  assert (Hrest : forall b,
            authkey = None ->
            PyStr.lacks "@"
              ((match host with Some h => h ++ ":" | None => "" end)
               ++ port_text "" b) = true).
  { intros b _. destruct host as [h|]; [|apply Tat].
    cbn in Hh1. rewrite !AddressFacts.lacks_app, Hh1, Tat. reflexivity. }
  split; unfold parse_multiproc_address, address.
  - fold (port_text "" false).
    destruct (AddressFacts.cut_at_first "@" authkey
                 ((match host with Some h => h ++ ":" | None => "" end)
                  ++ port_text "" false) "pysph") as [E1 E2];
      [exact Hk | exact (Hrest false) | rewrite E2].
    destruct (AddressFacts.cut_at_first ":" host (port_text "" false) "0.0.0.0")
      as [E3 E4]; [exact Hh2 | intros _; apply Tcolon | rewrite E4].
    reflexivity.
  - fold (port_text "" true).
    destruct (AddressFacts.cut_at_first "@" authkey
                 ((match host with Some h => h ++ ":" | None => "" end)
                  ++ port_text "" true) "pysph") as [E1 E2];
      [exact Hk | exact (Hrest true) | rewrite E2].
    destruct (AddressFacts.cut_at_first ":" host (port_text "" true) "0.0.0.0")
      as [E3 E4]; [exact Hh2 | intros _; apply Tcolon | rewrite E4].
    reflexivity.
Qed.

(** [--multiproc secret@host:] and [--multiproc secret@host:+] *)
Lemma multiproc_address_without_port_witness :
  parse_multiproc_address "secret@host:" = Raise IndexError /\
  parse_multiproc_address "secret@host:+"
    = Raise (ValueError "invalid literal for int()").
Proof.
  exact (multiproc_address_without_port (Some "secret") (Some "host")
           eq_refl eq_refl eq_refl).
Defined.

(** X16.  When the output part of [setup] returns, the solver carries
    the application's rank as both [rank] and [pid] and its communicator as
    [comm], whatever it carried before; [in_parallel] has been set in a run
    of more than one process and is otherwise left as the solver had it (it
    is never cleared).  The solver methods called after these assignments
    are recorded as calls and taken to leave the four attributes alone. *)
Theorem setup_output_binds_rank (env : Env) (o : Options) (w w2 : World) :
  setup_output env o w = (Ok tt, w2) ->
  exists s s',
    _solver (app w) = Some s /\ _solver (app w2) = Some s' /\
    Solver.rank s' = rank (app w) /\ Solver.pid s' = rank (app w) /\
    Solver.comm s' = comm (app w) /\
    Solver.in_parallel s' = (num_procs (app w) >? 1) || Solver.in_parallel s.
Proof.
  destruct w as [a tr]. cbn [app trace].
  destruct (_solver a) as [s|] eqn:Hs, (num_procs a >? 1) eqn:Hn;
    unfold setup_output; run_monad;
    repeat (first [rewrite Hs | rewrite Hn]; cbn);
    try discriminate;
    intros [= <-]; exists s; eexists; cbn; repeat split.
Qed.

(** Rank 1 of two processes: a solver that came in as rank 0, without a
    communicator and not parallel, leaves as rank 1 on [COMM_WORLD] and
    parallel. *)
Lemma setup_output_binds_rank_witness :
  (Solver.rank sample_solver, Solver.pid sample_solver,
   Solver.comm sample_solver, Solver.in_parallel sample_solver)
  = (0, 0, None, false) /\
  exists s',
    _solver (app (snd (setup_output (sample_env true 2 1)
                         (default_options "sd")
                         (sample_world 2 1 (default_options "sd")))))
      = Some s' /\
    Solver.rank s' = 1 /\ Solver.pid s' = 1 /\
    Solver.comm s' = Some COMM_WORLD /\ Solver.in_parallel s' = true.
Proof.
  split; [reflexivity|].
  destruct (setup_output_binds_rank (sample_env true 2 1)
              (default_options "sd")
              (sample_world 2 1 (default_options "sd"))
              (snd (setup_output (sample_env true 2 1) (default_options "sd")
                      (sample_world 2 1 (default_options "sd")))))
    as (s & s' & Hs & Hs' & Hr & Hp & Hc & Hi).
  - vm_compute. reflexivity.
  - exists s'. injection Hs as <-. repeat split; assumption.
Defined.

Lemma setup_logging_emits env filename level stream :
  emits_only is_logging_event (_setup_logging env filename level stream).
Proof. unfold _setup_logging. emits_walk. Qed.

Lemma setup_logging_keeps_path env filename level stream :
  keeps path (_setup_logging env filename level stream).
Proof. unfold _setup_logging. keeps_walk. Qed.

Lemma setup_logging_keeps_options env filename level stream :
  keeps options (_setup_logging env filename level stream).
Proof. unfold _setup_logging. keeps_walk. Qed.

(** X17.  With one of the six level names, [_process_command_line]
    makes the output directory first, at the absolute path of
    [--directory], and remembers that path and the parsed options; whatever
    it does after that is logging set-up, so the directory exists before a
    log file is opened in it. *)
Theorem output_directory_before_logging (env : Env) (parsed : Options)
    (w : World) :
  is_log_level_name (loglevel parsed) = true ->
  path (app (snd (_process_command_line env parsed w)))
    = Some (abspath env (output_dir parsed)) /\
  options (app (snd (_process_command_line env parsed w))) = Some parsed /\
  exists rest,
    trace (snd (_process_command_line env parsed w))
    = (trace w ++ EvMkdir (abspath env (output_dir parsed)) :: rest)%list /\
    forallb is_logging_event rest = true.
Proof.
  intro H.
  destruct (_log_levels (loglevel parsed)) as [level|] eqn:E.
  2:{ apply log_levels_domain in E. congruence. }
  unfold _process_command_line. rewrite E.
  erewrite bind_ok by reflexivity.
  erewrite bind_ok by reflexivity.
  erewrite bind_ok by reflexivity.
  cbn [app trace].
  destruct level as [l|].
  - pose proof (setup_logging_keeps_path env (logfile parsed) l
                  (print_log parsed)) as Kp.
    pose proof (setup_logging_keeps_options env (logfile parsed) l
                  (print_log parsed)) as Ko.
    destruct (setup_logging_emits env (logfile parsed) l (print_log parsed)
                {| app := set_path (Some (abspath env (output_dir parsed)))
                            (set_options (Some parsed) (app w));
                   trace := (trace w ++
                             [EvMkdir (abspath env (output_dir parsed))])%list |})
      as [rest [T F]].
    rewrite Kp, Ko. cbn [app].
    split; [now destruct (app w)|]. split; [now destruct (app w)|].
    exists rest. split; [|exact F].
    rewrite T. cbn [trace]. now rewrite <- List.app_assoc.
  - cbn [ret snd app trace].
    split; [now destruct (app w)|]. split; [now destruct (app w)|].
    exists []. now split.
Qed.

(** The default level, [warning]. *)
Lemma output_directory_before_logging_witness :
  path (app (snd (_process_command_line (sample_env true 2 0)
                    (default_options "sd")
                    {| app := constructed (sample_env true 2 0);
                       trace := [] |})))
    = Some (abspath (sample_env true 2 0)
              (output_dir (default_options "sd"))) /\
  options (app (snd (_process_command_line (sample_env true 2 0)
                       (default_options "sd")
                       {| app := constructed (sample_env true 2 0);
                          trace := [] |})))
    = Some (default_options "sd") /\
  exists rest,
    trace (snd (_process_command_line (sample_env true 2 0)
                  (default_options "sd")
                  {| app := constructed (sample_env true 2 0);
                     trace := [] |}))
    = (trace {| app := constructed (sample_env true 2 0); trace := [] |} ++
       EvMkdir (abspath (sample_env true 2 0)
                  (output_dir (default_options "sd"))) :: rest)%list /\
    forallb is_logging_event rest = true.
Proof.
  exact (output_directory_before_logging (sample_env true 2 0)
           (default_options "sd")
           {| app := constructed (sample_env true 2 0); trace := [] |}
           eq_refl).
Defined.

(** ** The factory's result on rank 0, in every run *)




